(** * Kernel Debug Kit handler (resources/kdk_handler.py)

  A shallow embedding of [kernel_debug_kit_handler]: the catalogue
  client, the legacy (AppleDB) matcher, the developer-portal probe, the
  mirror lookup, the on-disk cache manager and the download orchestrator,
  followed by the properties of these functions.

  Python exceptions are values of [exn] carried by the [Raise] constructor
  of an error monad; the file system below /Library/Developer/KDKs, the
  remote services and the log of external actions are explicit state.

  The libraries the handler calls are modelled on the inputs the remote
  services send: versions that are release numbers, release dates that are
  calendar dates, ASCII text.  Outside of these the model does not decide
  what a library does: it stops with [Unmodelled], which is no exception of
  Python.  The statements below name the inputs they are about. *)

From Stdlib Require Import String Ascii List ZArith NArith Lia Bool.
From Stdlib Require Import Sorted Permutation DecimalString.
Import ListNotations.

Local Open Scope list_scope.
Local Open Scope string_scope.

(** ** Strings *)

Module PyStr.

(** [s.endswith(suffix)] *)
Definition endswith (s suffix : string) : bool :=
  let n := String.length s in
  let m := String.length suffix in
  if (m <=? n)%nat then String.eqb (substring (n - m) m s) suffix else false.

(** [s.startswith(p)] *)
Fixpoint startswith (s p : string) : bool :=
  match p, s with
  | EmptyString, _ => true
  | String _ _, EmptyString => false
  | String a p', String b s' => Ascii.eqb a b && startswith s' p'
  end.

(** [sub in s] *)
Fixpoint contains (sub s : string) : bool :=
  startswith s sub ||
  match s with
  | EmptyString => false
  | String _ s' => contains sub s'
  end.

(** Truth value of a string: the empty string is falsy. *)
Definition truthy (s : string) : bool :=
  match s with EmptyString => false | _ => true end.

Definition is_digit (c : ascii) : bool :=
  let n := nat_of_ascii c in (48 <=? n)%nat && (n <=? 57)%nat.

Definition digit_value (c : ascii) : N := N.of_nat (nat_of_ascii c - 48).

Fixpoint all_digits (s : string) : bool :=
  match s with
  | EmptyString => true
  | String c s' => is_digit c && all_digits s'
  end.

(** [int(s)] for a string of decimal digits, most significant first. *)
Fixpoint int_of_digits_acc (acc : N) (s : string) : N :=
  match s with
  | EmptyString => acc
  | String c s' => int_of_digits_acc (acc * 10 + digit_value c) s'
  end.

Definition int_of_digits (s : string) : N := int_of_digits_acc 0 s.

(** The longest prefix of decimal digits, and what follows it. *)
Fixpoint span_digits (s : string) : string * string :=
  match s with
  | EmptyString => (EmptyString, EmptyString)
  | String c s' =>
      if is_digit c
      then let (d, r) := span_digits s' in (String c d, r)
      else (EmptyString, s)
  end.

(** [s.split(".")] *)
Fixpoint split_dots (s : string) : list string :=
  match s with
  | EmptyString => [EmptyString]
  | String c s' =>
      if Ascii.eqb c "."%char
      then EmptyString :: split_dots s'
      else match split_dots s' with
           | [] => [String c EmptyString]
           | w :: ws => String c w :: ws
           end
  end.

(** [str(n)] for a non-negative integer. *)
Definition str_of_N (n : N) : string := NilZero.string_of_uint (N.to_uint n).

(** A character of the ASCII range, and a text made of such characters. *)
Definition is_ascii (c : ascii) : bool := (nat_of_ascii c <? 128)%nat.


(** Some character of [s] is one of 0 to 9. *)
Fixpoint has_digit (s : string) : bool :=
  match s with
  | EmptyString => false
  | String c s' => is_digit c || has_digit s'
  end.

(** [sep.join(l)] *)
Fixpoint join (sep : string) (l : list string) : string :=
  match l with
  | [] => EmptyString
  | [x] => x
  | x :: l' => x ++ sep ++ join sep l'
  end.

End PyStr.


(** ** Exceptions and results *)

(** The three [requests.exceptions] classes the handler catches. *)
Inductive request_exception : Type :=
| Timeout
| TooManyRedirects
| ConnectionError.

(** What propagates out of the handler in a run of the model.
    [InvalidVersion] is raised by [packaging.version.parse], [ValueError] by
    [datetime.datetime.fromisoformat] and by [urllib.parse.urlparse]; they
    carry the offending string or the message.  [TypeError] is what a
    membership test on [None] raises.

    [Unmodelled] is not an exception of Python: a run ends with it when a
    library is given a text on which this model does not decide what the
    library does.  It carries that text. *)
Inductive exn : Type :=
| RequestException (e : request_exception)
| InvalidVersion (s : string)
| ValueError (s : string)
| TypeError
| Unmodelled (s : string).

Inductive result (A : Type) : Type :=
| Ok (a : A)
| Raise (e : exn).

Arguments Ok {A} a.
Arguments Raise {A} e.

Definition result_bind {A B} (r : result A) (k : A -> result B) : result B :=
  match r with
  | Ok a => k a
  | Raise e => Raise e
  end.

(** [[f(x) for x in l]], stopping at the first exception. *)
Fixpoint result_map {A B} (f : A -> result B) (l : list A) : result (list B) :=
  match l with
  | [] => Ok []
  | x :: l' =>
      result_bind (f x) (fun y =>
      result_bind (result_map f l') (fun ys => Ok (y :: ys)))
  end.

(** ** packaging.version

    Only final releases are modelled: a [Version] is its release tuple, and
    [parse] decides the strings N(.N)* of PEP 440, which it accepts, and the
    strings without any of the digits 0 to 9, on which it raises
    [InvalidVersion] as [packaging] does since its version 22 (every version
    of PEP 440 has a release number).  Any other string (a leading v,
    spaces, an epoch, a pre-, post- or development release, a local label,
    or a text PEP 440 rejects) is left undecided. *)

Module PkgVersion.

Record Version : Type := mkVersion { release : list N }.

Definition parse_component (w : string) : option N :=
  if PyStr.truthy w && PyStr.all_digits w
  then Some (PyStr.int_of_digits w)
  else None.

Fixpoint parse_components (ws : list string) : option (list N) :=
  match ws with
  | [] => Some []
  | w :: ws' =>
      match parse_component w, parse_components ws' with
      | Some n, Some ns => Some (n :: ns)
      | _, _ => None
      end
  end.

(** The release numbers N(.N)*: numbers in decimal digits, separated by
    dots. *)
Definition release_text (s : string) : bool :=
  forallb (fun w => PyStr.truthy w && PyStr.all_digits w) (PyStr.split_dots s).

(** [packaging.version.parse(s)] *)
Definition parse (s : string) : result Version :=
  match parse_components (PyStr.split_dots s) with
  | Some ns => Ok (mkVersion ns)
  | None =>
      if PyStr.has_digit s then Raise (Unmodelled s)
      else Raise (InvalidVersion s)
  end.

(** [version.major], [version.minor]: a missing component reads as 0. *)
Definition major (v : Version) : Z := Z.of_N (nth 0 (release v) 0%N).
Definition minor (v : Version) : Z := Z.of_N (nth 1 (release v) 0%N).

(** [str(version)] *)
Definition str (v : Version) : string :=
  PyStr.join "." (map PyStr.str_of_N (release v)).

(** The comparison key drops the trailing zeros of the release tuple, so
    that 14.4 and 14.4.0 are equal. *)
Fixpoint strip_trailing_zeros (l : list N) : list N :=
  match l with
  | [] => []
  | n :: l' =>
      match strip_trailing_zeros l' with
      | [] => if (n =? 0)%N then [] else [n]
      | r => n :: r
      end
  end.

Definition key (v : Version) : list N := strip_trailing_zeros (release v).

(** Tuple comparison: lexicographic, a proper prefix is smaller. *)
Fixpoint tuple_compare (a b : list N) : comparison :=
  match a, b with
  | [], [] => Eq
  | [], _ :: _ => Lt
  | _ :: _, [] => Gt
  | x :: a', y :: b' =>
      match (x ?= y)%N with
      | Eq => tuple_compare a' b'
      | c => c
      end
  end.

Definition compare (v w : Version) : comparison :=
  tuple_compare (key v) (key w).

(** [v <= w] *)
Definition leb (v w : Version) : bool :=
  match compare v w with Gt => false | _ => true end.

End PkgVersion.

(** ** datetime.datetime.fromisoformat

    Only calendar dates YYYY-MM-DD are modelled; the value is then midnight
    of that day, without a time zone, and any two such values compare.
    [fromisoformat] decides the strings of that shape (a day that does not
    exist raises [ValueError]) and the strings that do not begin with one
    of the digits 0 to 9, on which it raises [ValueError].  Any other string
    (a time, an offset, another ISO 8601 form) is left undecided: Python
    versions differ on them, and a value with an offset does not compare
    with one without. *)

Module PyDate.

Record datetime : Type := mkDate { year : N; month : N; day : N }.

Definition is_leap (y : N) : bool :=
  ((y mod 4 =? 0) && (negb (y mod 100 =? 0) || (y mod 400 =? 0)))%N.

Definition days_in_month (y m : N) : N :=
  match m with
  | 2%N => if is_leap y then 29 else 28
  | 4%N | 6%N | 9%N | 11%N => 30
  | _ => 31
  end%N.

Definition valid (d : datetime) : bool :=
  ((1 <=? year d) && (year d <=? 9999) &&
   (1 <=? month d) && (month d <=? 12) &&
   (1 <=? day d) && (day d <=? days_in_month (year d) (month d)))%N.

(** The shape DDDD-DD-DD, and the three numbers read off it. *)
Definition date_shape (s : string) : bool :=
  (String.length s =? 10)%nat &&
  PyStr.all_digits (substring 0 4 s) && PyStr.all_digits (substring 5 2 s) &&
  PyStr.all_digits (substring 8 2 s) &&
  String.eqb (substring 4 1 s) "-" && String.eqb (substring 7 1 s) "-".

Definition read_date (s : string) : datetime :=
  mkDate (PyStr.int_of_digits (substring 0 4 s))
         (PyStr.int_of_digits (substring 5 2 s))
         (PyStr.int_of_digits (substring 8 2 s)).


(** The text is empty or begins with an ASCII character that is not a
    digit: every text [fromisoformat] accepts begins with the four digits
    of the year. *)
Definition no_leading_digit (s : string) : bool :=
  match s with
  | EmptyString => true
  | String c _ => PyStr.is_ascii c && negb (PyStr.is_digit c)
  end.

Definition fromisoformat (s : string) : result datetime :=
  if date_shape s then
    if valid (read_date s) then Ok (read_date s) else Raise (ValueError s)
  else if no_leading_digit s then Raise (ValueError s)
  else Raise (Unmodelled s).

Definition compare (a b : datetime) : comparison :=
  match (year a ?= year b)%N with
  | Eq => match (month a ?= month b)%N with
          | Eq => (day a ?= day b)%N
          | c => c
          end
  | c => c
  end.

End PyDate.

(** ** Sort keys and [sorted(..., reverse=True)]

    Both sorts of the handler use the key (version, date), a Python tuple:
    the versions decide unless they are equal. *)

Definition sort_key : Type := PkgVersion.Version * PyDate.datetime.

Definition key_compare (a b : sort_key) : comparison :=
  match PkgVersion.compare (fst a) (fst b) with
  | Eq => PyDate.compare (snd a) (snd b)
  | c => c
  end.

(** [a < b] on keys, the only comparison the sort uses. *)
Definition key_ltb (a b : sort_key) : bool :=
  match key_compare a b with Lt => true | _ => false end.


(** A sort with [reverse=True] is stable: the result is descending and
    records with equal keys keep their input order.  That result is unique,
    and insertion from the right computes it. *)
Section SortedReverse.

Context {A : Type}.

Fixpoint insert_desc (x : sort_key * A) (l : list (sort_key * A))
  : list (sort_key * A) :=
  match l with
  | [] => [x]
  | y :: l' =>
      if key_ltb (fst x) (fst y) then y :: insert_desc x l' else x :: y :: l'
  end.

Fixpoint sort_desc (l : list (sort_key * A)) : list (sort_key * A) :=
  match l with
  | [] => []
  | x :: l' => insert_desc x (sort_desc l')
  end.

(** [sorted(l, key=key, reverse=True)]: the keys are computed first, for every
    record, and an exception of [key] aborts the sort. *)
Definition sorted_reverse (key : A -> result sort_key) (l : list A)
  : result (list A) :=
  result_bind (result_map (fun x => result_bind (key x) (fun k => Ok (k, x))) l)
    (fun kl => Ok (map snd (sort_desc kl))).

End SortedReverse.

(** ** Remote records and responses *)

(** An entry of the KDK API catalogue. *)
Record kdk_record : Type := mkKdk {
  k_version : string;
  k_build : string;
  k_date : string;
  k_url : string
}.

(** An entry of the "ios" array of AppleDB. *)
Record os_record : Type := mkOs {
  osType : string;
  os_version : string;
  os_build : string;
  released : string
}.

(** A release of the mirror repository and its assets. *)
Record asset : Type := mkAsset {
  asset_name : string;
  browser_download_url : string
}.

Record release : Type := mkRelease {
  tag_name : string;
  assets : list asset
}.

(** The outcome of one HTTP request: one of the three exceptions, or a
    response with its status code, its text and its decoded JSON body.  The
    body is the list of records the handler reads out of it.  A request that
    raises another exception, and a body that is not JSON or lacks a key the
    handler reads, are not outcomes of this model. *)
Inductive response (A : Type) : Type :=
| Failed (e : request_exception)
| Response (status_code : Z) (text : string) (json : A).

Arguments Failed {A} e.
Arguments Response {A} status_code text json.

(** ** The machine: cache directory, log of external actions, environment *)

(** An entry of /Library/Developer/KDKs, with the paths that exist below
    it when it is a directory. *)
Record kdk_folder : Type := mkFolder {
  name : string;
  is_dir : bool;
  contents : list string
}.

Inductive event : Type :=
| GetKdkApi
| GetAppleDB
| CheckNetwork
| GetToken (link : string)
| GetMirror
| DownloadFile (url : string)
| DownloadPortal (url : string)
| HdiutilVerify
| Remove (folder : string).

(** [kdks] is [None] when /Library/Developer/KDKs does not exist, else its
    listing in the order [iterdir] yields it.  [log] has the latest action
    first. *)
Record state : Type := mkState {
  kdks : option (list kdk_folder);
  log : list event
}.

(** The environment answers each external action; an answer may depend on
    everything that happened before it.  The token endpoint is asked with
    the path of the link.  [urlparse_path] is
    [urllib.parse.urlparse(link).path]: the path the library reads off a
    link, or the exception it raises on a link it rejects.  It is left to
    the environment, as the library is not modelled. *)
Record World : Type := mkWorld {
  kdk_api : list event -> response (list kdk_record);
  appledb : list event -> response (list os_record);
  verify_network_connection : list event -> bool;
  urlparse_path : string -> result string;
  token_endpoint : list event -> string -> response unit;
  mirror_repository : list event -> response (list release);
  download_file : list event -> string -> bool;
  download_apple_developer_portal : list event -> string -> bool;
  hdiutil_verify : list event -> Z
}.

(** The fields of [Constants] the handler reads. *)
Record Constants : Type := mkConstants {
  should_nuke_kdks : bool;
  patcher_version : string;
  kdk_download_path : string
}.

(** State and exception monad. *)
Definition M (A : Type) : Type := state -> result (A * state).

Definition ret {A} (a : A) : M A := fun st => Ok (a, st).

Definition bind {A B} (m : M A) (k : A -> M B) : M B :=
  fun st =>
    match m st with
    | Ok (a, st') => k a st'
    | Raise e => Raise e
    end.

Definition raise {A} (e : exn) : M A := fun _ => Raise e.

Definition lift {A} (r : result A) : M A :=
  fun st =>
    match r with
    | Ok a => Ok (a, st)
    | Raise e => Raise e
    end.

Notation "x <- c ;; k" := (bind c (fun x => k))
  (at level 61, c at next level, right associativity).
Notation "c ;;; k" := (bind c (fun _ => k))
  (at level 61, right associativity).

(** One external action: the environment answers from the history, and the
    action is logged. *)
Definition perform {A} (ev : event) (answer : list event -> A) : M A :=
  fun st => Ok (answer (log st), mkState (kdks st) (ev :: log st)).

(** [utilities.elevated(["rm", "-rf", file])]: the folder leaves the
    listing. *)
Definition elevated_rm (file : kdk_folder) : M unit :=
  fun st =>
    Ok (tt,
        mkState
          (option_map
             (filter (fun f => negb (String.eqb (name f) (name file))))
             (kdks st))
          (Remove (name file) :: log st)).

(** ** get_available_kdks *)

Definition kdk_sort_key (x : kdk_record) : result sort_key :=
  result_bind (PkgVersion.parse (k_version x)) (fun v =>
  result_bind (PyDate.fromisoformat (k_date x)) (fun d => Ok (v, d))).

Definition get_available_kdks (w : World) : M (option (list kdk_record)) :=
  results <- perform GetKdkApi (kdk_api w) ;;
  match results with
  | Failed _ => ret None
  | Response status_code _ json =>
      if negb (status_code =? 200)%Z then ret None
      else
        l <- lift (sorted_reverse kdk_sort_key json) ;;
        ret (Some l)
  end.

(** ** get_closest_match_legacy and generate_kdk_link *)

(** The pattern \d+\.\d+(\.\d+)? over ASCII text, where \d is one of 0
    to 9: the matched text, anchored at the start of [s]. *)
Definition version_pattern_scan (s : string) : option string :=
  let (d1, r1) := PyStr.span_digits s in
  match d1, r1 with
  | String _ _, String "."%char r1' =>
      let (d2, r2) := PyStr.span_digits r1' in
      match d2 with
      | EmptyString => None
      | String _ _ =>
          match r2 with
          | String "."%char r2' =>
              let (d3, _) := PyStr.span_digits r2' in
              match d3 with
              | EmptyString => Some (d1 ++ "." ++ d2)
              | String _ _ => Some (d1 ++ "." ++ d2 ++ "." ++ d3)
              end
          | _ => Some (d1 ++ "." ++ d2)
          end
      end
  | _, _ => None
  end.

(** In Python \d also matches the decimal digits of other scripts.  The
    scan decides the match when every character at which the pattern asks
    for a digit is an ASCII character: the digits it takes are, and so must
    be the character that ends each number. *)
Definition ascii_next (r : string) : bool :=
  match r with
  | String c _ => PyStr.is_ascii c
  | EmptyString => true
  end.

Definition version_pattern_decided (s : string) : bool :=
  let (d1, r1) := PyStr.span_digits s in
  ascii_next r1 &&
  match r1 with
  | String dot r1' =>
      if PyStr.truthy d1 && Ascii.eqb dot "."%char then
        let (d2, r2) := PyStr.span_digits r1' in
        ascii_next r2 &&
        match r2 with
        | String dot2 r2' =>
            if PyStr.truthy d2 && Ascii.eqb dot2 "."%char then
              let (_, r3) := PyStr.span_digits r2' in ascii_next r3
            else true
        | EmptyString => true
        end
      else true
  | EmptyString => true
  end.

(** [VERSION_PATTERN.match(s)]; left undecided on a text where a character
    outside ASCII stands where the pattern asks for a digit. *)
Definition version_pattern_match (s : string) : result (option string) :=
  if version_pattern_decided s then Ok (version_pattern_scan s)
  else Raise (Unmodelled s).

Definition generate_kdk_link (version build : string) : string :=
  "https://download.developer.apple.com/macOS/Kernel_Debug_Kit_" ++ version
  ++ "_build_" ++ build ++ "/Kernel_Debug_Kit_" ++ version ++ "_build_"
  ++ build ++ ".dmg".

Definition legacy_sort_key (x : os_record) : result sort_key :=
  result_bind (version_pattern_match (os_version x)) (fun m =>
  result_bind
    (PkgVersion.parse
       match m with
       | Some raw => raw
       | None => "0.0.0"
       end) (fun v =>
  result_bind
    (PyDate.fromisoformat
       (if String.eqb (released x) "" then "1984-01-01" else released x))
    (fun d => Ok (v, d)))).

(** What the matcher returns: link (or None), version, build. *)
Definition candidate : Type := option string * string * string.

(** The loop over the sorted builds (lines 71-88). *)
Fixpoint legacy_scan (parsed_host_version : PkgVersion.Version)
  (host_build : string) (macos_builds : list os_record) : result candidate :=
  match macos_builds with
  | [] => Ok (None, "", "")
  | build_info :: rest =>
      if String.eqb (osType build_info) "macOS" then
        result_bind (version_pattern_match (os_version build_info)) (fun m =>
        match m with
        | None => legacy_scan parsed_host_version host_build rest
        | Some raw_version =>
            result_bind (PkgVersion.parse raw_version) (fun version =>
            let build := os_build build_info in
            if String.eqb build host_build then
              legacy_scan parsed_host_version host_build rest
            else if PkgVersion.leb version parsed_host_version
                    && (PkgVersion.major version
                        =? PkgVersion.major parsed_host_version)%Z
                    && (PkgVersion.minor version
                        =? PkgVersion.minor parsed_host_version)%Z
            then Ok (Some (generate_kdk_link (PkgVersion.str version) build),
                     PkgVersion.str version, build)
            else legacy_scan parsed_host_version host_build rest)
        end)
      else legacy_scan parsed_host_version host_build rest
  end.

Definition get_closest_match_legacy (w : World)
  (host_version host_build : string) : M candidate :=
  parsed_host_version <- lift (PkgVersion.parse host_version) ;;
  results <- perform GetAppleDB (appledb w) ;;
  match results with
  | Failed _ => ret (None, "", "")
  | Response status_code _ json =>
      if negb (status_code =? 200)%Z then ret (None, "", "")
      else
        let macos_builds :=
          filter (fun i => String.eqb (osType i) "macOS") json in
        macos_builds <- lift (sorted_reverse legacy_sort_key macos_builds) ;;
        lift (legacy_scan parsed_host_version host_build macos_builds)
  end.

(** ** verify_apple_developer_portal *)

(** The four return codes (lines 97-101). *)
Definition Available : Z := 0.
Definition Unavailable : Z := 1.
Definition PortalDown : Z := 2.
Definition NetworkDown : Z := 3.

(** [response.raise_for_status()] raises [HTTPError] for the client and
    server error codes. *)
Definition raises_for_status (status_code : Z) : bool :=
  ((400 <=? status_code) && (status_code <? 600))%Z.

(** The connectivity check comes first (line 103); the link is parsed next
    (line 108), outside the [try], so that an exception of [urlparse]
    propagates; the token request is made with the path of the link. *)
Definition verify_apple_developer_portal (w : World) (link : string) : M Z :=
  up <- perform CheckNetwork (verify_network_connection w) ;;
  if negb up then ret 3%Z
  else
    remote_path <- lift (urlparse_path w link) ;;
    response <- perform (GetToken link)
                  (fun h => token_endpoint w h remote_path) ;;
    match response with
    | Failed _ => ret 2%Z
    | Response status_code text _ =>
        if raises_for_status status_code then
          if (status_code =? 400)%Z
             && PyStr.contains "The path specified is invalid" text
          then ret 1%Z
          else ret 2%Z
        else ret 0%Z
    end.

(** ** kdk_backup_site *)

(** The loop over the releases (lines 286-294): the first .dmg asset of a
    release tagged [build]; a tagged release without one is passed over. *)
Fixpoint find_mirror (build : string) (catalog : list release) : option string :=
  match catalog with
  | [] => None
  | release :: rest =>
      if String.eqb (tag_name release) build then
        match find (fun a => PyStr.endswith (asset_name a) ".dmg")
                   (assets release) with
        | Some a => Some (browser_download_url a)
        | None => find_mirror build rest
        end
      else find_mirror build rest
  end.

(** [requests.get] is called outside any [try]: its exceptions propagate. *)
Definition kdk_backup_site (w : World) (build : string) : M (option string) :=
  catalog <- perform GetMirror (mirror_repository w) ;;
  match catalog with
  | Failed e => raise (RequestException e)
  | Response status_code _ json =>
      if negb (status_code =? 200)%Z then ret None
      else ret (find_mirror build json)
  end.

(** ** is_kdk_installed *)

Definition kexts_to_check : list string :=
  [ "System.kext/PlugIns/Libkern.kext/Libkern";
    "apfs.kext/Contents/MacOS/apfs";
    "IOUSBHostFamily.kext/Contents/MacOS/IOUSBHostFamily";
    "AMDRadeonX6000.kext/Contents/MacOS/AMDRadeonX6000" ].

(** [Path(f"{file}/System/Library/Extensions/{kext}").exists()] *)
Definition kext_exists (file : kdk_folder) (kext : string) : bool :=
  existsb (String.eqb ("System/Library/Extensions/" ++ kext)) (contents file).

(** The loop over the listing (lines 239-247): the first directory with the
    suffix decides. *)
Fixpoint is_kdk_installed_loop (build : string) (files : list kdk_folder)
  : M bool :=
  match files with
  | [] => ret false
  | file :: rest =>
      if is_dir file && PyStr.endswith (name file) (build ++ ".kdk") then
        match find (fun kext => negb (kext_exists file kext)) kexts_to_check with
        | Some _ => elevated_rm file ;;; ret false
        | None => ret true
        end
      else is_kdk_installed_loop build rest
  end.

Definition is_kdk_installed (build : string) : M bool :=
  fun st =>
    match kdks st with
    | Some files => is_kdk_installed_loop build files st
    | None => ret false st
    end.

(** ** remove_unused_kdks *)

(** The inner loop (lines 265-268): some build of the list is not empty and
    is the suffix of the name. *)
Definition kept (exclude_builds : list string) (folder_name : string) : bool :=
  existsb
    (fun build =>
       negb (String.eqb build "")
       && PyStr.endswith folder_name (build ++ ".kdk"))
    exclude_builds.

Fixpoint remove_unused_loop (exclude_builds : list string)
  (folders : list kdk_folder) : M unit :=
  match folders with
  | [] => ret tt
  | kdk_folder :: rest =>
      (if is_dir kdk_folder && PyStr.endswith (name kdk_folder) ".kdk"
       then
         if kept exclude_builds (name kdk_folder) then ret tt
         else elevated_rm kdk_folder
       else ret tt) ;;;
      remove_unused_loop exclude_builds rest
  end.

Definition remove_unused_kdks (constants : Constants)
  (exclude_builds : list string) : M unit :=
  fun st =>
    if negb (should_nuke_kdks constants) then ret tt st
    else
      match kdks st with
      | None => ret tt st
      | Some folders =>
          match exclude_builds with
          | [] => ret tt st
          | _ :: _ => remove_unused_loop exclude_builds folders st
          end
      end.

(** ** download_kdk *)

(** The four locals the catalogue loop assigns (lines 136-139). *)
Record candidates : Type := mkCandidates {
  download_link : option string;
  closest_match_download_link : option string;
  closest_version : string;
  closest_build : string
}.

(** Truth value of a link: [None] and the empty string are falsy. *)
Definition link_truthy (l : option string) : bool :=
  match l with
  | Some s => PyStr.truthy s
  | None => false
  end.

(** The loop over the catalogue (lines 146-154). *)
Fixpoint scan_kdk_list (parsed_version : PkgVersion.Version) (build : string)
  (kdk_list : list kdk_record) (c : candidates) : result candidates :=
  match kdk_list with
  | [] => Ok c
  | kdk :: rest =>
      result_bind (PkgVersion.parse (k_version kdk)) (fun kdk_version =>
      if String.eqb (k_build kdk) build then
        scan_kdk_list parsed_version build rest
          (mkCandidates (Some (k_url kdk)) (closest_match_download_link c)
             (closest_version c) (closest_build c))
      else if negb (link_truthy (closest_match_download_link c))
              && PkgVersion.leb kdk_version parsed_version
              && (PkgVersion.major kdk_version
                  =? PkgVersion.major parsed_version)%Z
              && ((PkgVersion.minor kdk_version
                   =? PkgVersion.minor parsed_version)%Z
                  || (PkgVersion.minor kdk_version
                      =? PkgVersion.minor parsed_version - 1)%Z)
      then
        scan_kdk_list parsed_version build rest
          (mkCandidates (download_link c) (Some (k_url kdk))
             (k_version kdk) (k_build kdk))
      else scan_kdk_list parsed_version build rest c)
  end.

(** The transfer (lines 211-214): the mirror is fetched directly, any other
    link through the developer portal. *)
Definition transfer (w : World) (download_link : string) : M bool :=
  if PyStr.contains "github" download_link
  then perform (DownloadFile download_link)
         (fun h => download_file w h download_link)
  else perform (DownloadPortal download_link)
         (fun h => download_apple_developer_portal w h download_link).

Definition msg_no_closest : string :=
  "Could not find KDK for host, nor closest match".
Definition msg_no_closest_on_servers : string :=
  "Could not find KDK for host on Apple's servers, nor closest match".
Definition msg_portal_down : string :=
  "Could not contact Apple download servers".
Definition msg_no_backup : string :=
  msg_portal_down ++ " and could not find a backup copy online".
Definition msg_unknown : string := "Unknown error".
Definition msg_no_internet : string := "Failed to connect to the internet".
Definition msg_checksum : string :=
  "Kernel Debug Kit checksum verification failed, please try again."
  ++ String (ascii_of_nat 10) (String (ascii_of_nat 10)
  "If this continues to fail, ensure you're downloading on a stable network connection (ie. Ethernet)").
Definition msg_download_failed : string := "Failed to download KDK".

(** What [download_kdk] returns: success, message, build. *)
Definition outcome : Type := bool * string * string.

(** Lines 211-228: transfer, image verification, pruning. *)
Definition download_and_verify (w : World) (constants : Constants)
  (detected_build closest_build download_link : string) : M outcome :=
  result <- transfer w download_link ;;
  if result then
    returncode <- perform HdiutilVerify (hdiutil_verify w) ;;
    if negb (returncode =? 0)%Z then ret (false, msg_checksum, "")
    else
      remove_unused_kdks constants [detected_build; closest_build] ;;;
      ret (true, "", detected_build)
  else ret (false, msg_download_failed, "").

(** Lines 141-158: the candidates, from the catalogue or, when it is
    missing or empty, from the link template and the legacy matcher. *)
Definition resolve_candidates (w : World) (version build : string)
  : M candidates :=
  kdk_list <- get_available_kdks w ;;
  parsed_version <- lift (PkgVersion.parse version) ;;
  match kdk_list with
  | Some ((_ :: _) as kdk_list) =>
      lift (scan_kdk_list parsed_version build kdk_list
              (mkCandidates None None "" ""))
  | _ =>
      let download_link := generate_kdk_link version build in
      c <- get_closest_match_legacy w version build ;;
      let '(closest_match_download_link, closest_version, closest_build) := c in
      ret (mkCandidates (Some download_link) closest_match_download_link
             closest_version closest_build)
  end.

(** Lines 165-198: the primary link is not on the portal. *)
Definition closest_match_branch (w : World) (constants : Constants)
  (detected_build : string) (c : candidates) : M outcome :=
  let closest_build := closest_build c in
  installed <- is_kdk_installed closest_build ;;
  if installed then
    remove_unused_kdks constants [detected_build; closest_build] ;;;
    ret (true, "", closest_build)
  else
    match closest_match_download_link c with
    | None => ret (false, msg_no_closest, "")
    | Some closest_link =>
        result <- verify_apple_developer_portal w closest_link ;;
        if (result =? 0)%Z then
          download_and_verify w constants detected_build closest_build
            closest_link
        else if (result =? 1)%Z then
          ret (false, msg_no_closest_on_servers, "")
        else if (result =? 2)%Z then
          download_link <- kdk_backup_site w closest_build ;;
          match download_link with
          | None => ret (false, msg_no_backup, "")
          | Some download_link =>
              download_and_verify w constants detected_build closest_build
                download_link
          end
        else ret (false, msg_unknown, "")
    end.

Definition download_kdk (w : World) (constants : Constants)
  (version build : string) : M outcome :=
  let detected_build := build in
  installed <- is_kdk_installed detected_build ;;
  if installed then
    remove_unused_kdks constants [detected_build] ;;;
    ret (true, "", detected_build)
  else
    c <- resolve_candidates w version build ;;
    let proceed (download_link : option string) : M outcome :=
      match download_link with
      | Some download_link =>
          download_and_verify w constants detected_build (closest_build c)
            download_link
      | None => raise TypeError
      end in
    result <-
      (if link_truthy (download_link c) then
         match download_link c with
         | Some link => verify_apple_developer_portal w link
         | None => ret 1%Z
         end
       else ret 1%Z) ;;
    if (result =? 0)%Z then proceed (download_link c)
    else if (result =? 1)%Z then
      closest_match_branch w constants detected_build c
    else if (result =? 2)%Z then
      download_link <- kdk_backup_site w build ;;
      match download_link with
      | None => ret (false, msg_no_backup, "")
      | Some _ => proceed download_link
      end
    else if (result =? 3)%Z then ret (false, msg_no_internet, "")
    else proceed (download_link c).

(** ** Vocabulary of the statements *)

(** The listing of the cache root; empty when the root is missing. *)
Definition listing (st : state) : list kdk_folder :=
  match kdks st with
  | Some l => l
  | None => []
  end.

(** A directory whose name ends in the kit suffix. *)
Definition is_kit (f : kdk_folder) : bool :=
  is_dir f && PyStr.endswith (name f) ".kdk".

(** A kit no build of the list protects. *)
Definition doomed (exclude_builds : list string) (f : kdk_folder) : bool :=
  is_kit f && negb (kept exclude_builds (name f)).

Definition doomed_names (exclude_builds : list string)
  (folders : list kdk_folder) : list string :=
  map name (filter (doomed exclude_builds) folders).

(** A kit with the four kernel extensions in place. *)
Definition intact (f : kdk_folder) : bool :=
  forallb (kext_exists f) kexts_to_check.

(** The names removed and the links transferred, latest first. *)
Fixpoint removed (l : list event) : list string :=
  match l with
  | [] => []
  | Remove n :: l' => n :: removed l'
  | _ :: l' => removed l'
  end.

Fixpoint transferred (l : list event) : list string :=
  match l with
  | [] => []
  | DownloadFile u :: l' => u :: transferred l'
  | DownloadPortal u :: l' => u :: transferred l'
  | _ :: l' => transferred l'
  end.

(** What a three-way comparison must satisfy to order a sort. *)
Class TotalCompare {K : Type} (cmp : K -> K -> comparison) : Prop := {
  cmp_opp : forall a b, cmp b a = CompOpp (cmp a b);
  cmp_eq_l : forall a b c, cmp a b = Eq -> cmp a c = cmp b c;
  cmp_lt_trans : forall a b c, cmp a b = Lt -> cmp b c = Lt -> cmp a c = Lt
}.



(** The key of [x] can be computed. *)
Definition has_key {A} (key : A -> result sort_key) (x : A) : Prop :=
  exists k, key x = Ok k.








(** *** The legacy matcher in the words of its specification

    What follows says which entry the matcher is to return without the
    pattern match, the sort key and the loop of the handler. *)

(** A number written in decimal digits. *)
Definition decimal (d : string) : Prop :=
  d <> "" /\ PyStr.all_digits d = true.

(** [rest] does not go on with a digit. *)
Definition ends_number (rest : string) : Prop :=
  match rest with
  | String c _ => PyStr.is_digit c = false
  | EmptyString => True
  end.

(** [rest] does not go on with a dot and a digit. *)
Definition ends_version (rest : string) : Prop :=
  match rest with
  | String dot (String c _) => dot = "."%char -> PyStr.is_digit c = false
  | _ => True
  end.

(** The text begins with a version major.minor or major.minor.patch, each
    number taken as long as it goes and the patch taken when there is one;
    [ns] are the numbers. *)
Inductive leading_version : string -> list N -> Prop :=
| leading_two (major minor rest : string) :
    decimal major -> decimal minor ->
    ends_number rest -> ends_version rest ->
    leading_version (major ++ "." ++ minor ++ rest)
      [PyStr.int_of_digits major; PyStr.int_of_digits minor]
| leading_three (major minor patch rest : string) :
    decimal major -> decimal minor -> decimal patch ->
    ends_number rest ->
    leading_version (major ++ "." ++ minor ++ "." ++ patch ++ rest)
      [PyStr.int_of_digits major; PyStr.int_of_digits minor;
       PyStr.int_of_digits patch].






(** A computation that transfers nothing. *)
Definition quiet {A} (m : M A) : Prop :=
  forall st a st',
    m st = Ok (a, st') -> transferred (log st') = transferred (log st).

(** An action that is not a transfer. *)
Definition no_transfer (ev : event) : Prop :=
  match ev with
  | DownloadFile _ | DownloadPortal _ => False
  | _ => True
  end.

(** A computation that returns from every state, never raises, and
    returns a value that satisfies [P]. *)
Definition returns {A} (P : A -> Prop) (m : M A) : Prop :=
  forall st, exists a st', m st = Ok (a, st') /\ P a.

(** ** Sample data *)

(** A kit directory with the four kernel extensions, and one without. *)
Definition kit (n : string) : kdk_folder :=
  mkFolder n true
    (map (fun kext => "System/Library/Extensions/" ++ kext) kexts_to_check).

Definition broken_kit (n : string) : kdk_folder := mkFolder n true [].

Definition sample_constants : Constants :=
  mkConstants true "1.0.0" "/tmp/KDK.dmg".

Definition cache_two_kits : state :=
  mkState (Some [kit "KDK_14.4_23E214.kdk"; kit "KDK_14.3_23D56.kdk"]) [].

Definition cache_one_kit : state :=
  mkState (Some [kit "KDK_14.3_23D56.kdk"]) [].

(** The text before the first character that [stop] accepts, and the text
    from that character on. *)
Fixpoint upto (stop : ascii -> bool) (s : string) : string * string :=
  match s with
  | EmptyString => (EmptyString, EmptyString)
  | String c s' =>
      if stop c then (EmptyString, s)
      else let (a, b) := upto stop s' in (String c a, b)
  end.

(** A printable ASCII character other than the marks of a query, a
    fragment, parameters and an address in brackets, and the backslash. *)
Definition plain_char (c : ascii) : bool :=
  let n := nat_of_ascii c in
  (33 <=? n)%nat && (n <=? 126)%nat
  && negb (existsb (Ascii.eqb c)
             ["?"; "#"; ";"; "["; "]"; ascii_of_nat 92]%char).

Fixpoint plain_text (s : string) : bool :=
  match s with
  | EmptyString => true
  | String c s' => plain_char c && plain_text s'
  end.

(** What the sample environments answer for [urlparse_path], on the links
    http://host/path and https://host/path: the path when the link is plain
    text, and the ValueError of [urlparse] when the host has one square
    bracket and not the other.  Other links are left undecided. *)
Definition path_of_link (link : string) : result string :=
  let rest :=
    if PyStr.startswith link "https://"
    then Some (substring 8 (String.length link) link)
    else if PyStr.startswith link "http://"
    then Some (substring 7 (String.length link) link)
    else None in
  match rest with
  | None => Raise (Unmodelled link)
  | Some r =>
      let ends_host c :=
        Ascii.eqb c "/"%char || Ascii.eqb c "?"%char || Ascii.eqb c "#"%char in
      let (host, path) := upto ends_host r in
      if xorb (PyStr.contains "[" host) (PyStr.contains "]" host)
      then Raise (ValueError "Invalid IPv6 URL")
      else if plain_text link then Ok path
      else Raise (Unmodelled link)
  end.

(** An environment that answers the same way whatever happened before. *)
Definition static_world (api : response (list kdk_record))
  (db : response (list os_record)) (up : bool)
  (token : string -> response unit) (mirror : response (list release))
  (downloads : bool) (returncode : Z) : World :=
  mkWorld (fun _ => api) (fun _ => db) (fun _ => up) path_of_link
    (fun _ => token)
    (fun _ => mirror) (fun _ _ => downloads) (fun _ _ => downloads)
    (fun _ => returncode).

Definition no_cache : state := mkState None [].

Definition kdk_23E214 : kdk_record :=
  mkKdk "14.4" "23E214" "2024-03-07"
    "https://download.developer.apple.com/macOS/Kernel_Debug_Kit_14.4_build_23E214/Kernel_Debug_Kit_14.4_build_23E214.dmg".

Definition kdk_23D56 : kdk_record :=
  mkKdk "14.3" "23D56" "2024-01-22"
    "https://download.developer.apple.com/macOS/Kernel_Debug_Kit_14.3_build_23D56/Kernel_Debug_Kit_14.3_build_23D56.dmg".

(** A record whose date is not an ISO date. *)
Definition kdk_undated : kdk_record :=
  mkKdk "14.2" "23C64" "unknown"
    "https://download.developer.apple.com/macOS/Kernel_Debug_Kit_14.2_build_23C64/Kernel_Debug_Kit_14.2_build_23C64.dmg".

Definition token_ok : string -> response unit :=
  fun _ => Response 200 "ok" tt.

Definition no_mirror : response (list release) := Response 404 "" [].

Definition no_db : response (list os_record) := Failed ConnectionError.

(** An AppleDB answer: the host's own build, a beta of the same version
    with no release date, an older release, and an entry of another system. *)
Definition appledb_sample : list os_record :=
  [ mkOs "macOS" "14.3" "23D56" "2024-01-22";
    mkOs "iOS" "17.4" "21E219" "2024-03-05";
    mkOs "macOS" "14.4 beta 2" "23E5180j" "";
    mkOs "macOS" "14.4" "23E214" "2024-03-07" ].

Definition world_legacy : World :=
  static_world (Failed Timeout) (Response 200 "" appledb_sample) true
    token_ok no_mirror true 0.



(** The catalogue lists the requested build 23E214 and an older one; the
    portal serves every link; transfers and image verification succeed. *)
Definition world_exact : World :=
  static_world (Response 200 "" [kdk_23D56; kdk_23E214]) no_db true
    token_ok no_mirror true 0.

(** The catalogue lists only the older build 23D56. *)
Definition world_older_only : World :=
  static_world (Response 200 "" [kdk_23D56]) no_db true
    token_ok no_mirror true 0.

(** The portal times out and the mirror cannot be reached. *)
Definition world_mirror_unreachable : World :=
  static_world (Response 200 "" [kdk_23E214]) no_db true
    (fun _ => Failed Timeout) (Failed ConnectionError) true 0.

(** A catalogue with nothing for macOS 14. *)
Definition kdk_22A380 : kdk_record :=
  mkKdk "13.0" "22A380" "2022-10-24"
    "https://download.developer.apple.com/macOS/Kernel_Debug_Kit_13.0_build_22A380/Kernel_Debug_Kit_13.0_build_22A380.dmg".

Definition world_nothing_close : World :=
  static_world (Response 200 "" [kdk_22A380]) no_db true
    token_ok no_mirror true 0.

(** A damaged kit listed before a sound one, and the other way round. *)
Definition cache_damaged_first : state :=
  mkState
    (Some [broken_kit "KDK_13.0_22A380.kdk"; kit "KDK_14.3_23D56.kdk"]) [].

Definition cache_sound_first : state :=
  mkState
    (Some [kit "KDK_14.3_23D56.kdk"; broken_kit "KDK_13.0_22A380.kdk"]) [].

(** The catalogue has a record with a date that is not an ISO date. *)
Definition world_undated : World :=
  static_world (Response 200 "" [kdk_23E214; kdk_undated]) no_db true
    token_ok no_mirror true 0.

(** The catalogue, AppleDB and the token request all time out; the mirror
    has a release for the requested build. *)
Definition mirror_23E214 : response (list release) :=
  Response 200 ""
    [mkRelease "23E214"
       [mkAsset "Kernel_Debug_Kit_14.4_build_23E214.dmg"
          "https://github.com/dortania/KdkSupportPkg/releases/download/23E214/Kernel_Debug_Kit_14.4_build_23E214.dmg"]].

Definition world_timeouts : World :=
  static_world (Failed Timeout) (Failed Timeout) true
    (fun _ => Failed Timeout) mirror_23E214 true 0.




(** A catalogue record whose link has an opening bracket in its host and no
    closing one. *)
Definition kdk_bad_link : kdk_record :=
  mkKdk "14.4" "23E214" "2024-03-07"
    "https://[download.developer.apple.com/macOS/Kernel_Debug_Kit_14.4_build_23E214.dmg".

Definition world_bad_link : World :=
  static_world (Response 200 "" [kdk_bad_link]) no_db true
    token_ok no_mirror true 0.

(** No connection. *)
Definition world_offline : World :=
  static_world (Failed ConnectionError) no_db false
    (fun _ => Failed ConnectionError) (Failed ConnectionError) false 0.

(** The portal has no file at any path. *)
Definition token_invalid_path : string -> response unit :=
  fun _ => Response 400 "The path specified is invalid" tt.

Definition world_nothing_served : World :=
  static_world (Response 200 "" [kdk_23E214]) no_db true
    token_invalid_path no_mirror true 0.

(** The portal answers 503 Service Unavailable. *)
Definition world_portal_error : World :=
  static_world (Response 200 "" [kdk_23E214]) no_db true
    (fun _ => Response 503 "" tt) no_mirror true 0.

(** The portal answers 304 Not Modified. *)
Definition world_not_modified : World :=
  static_world (Response 200 "" [kdk_23E214]) no_db true
    (fun _ => Response 304 "" tt) no_mirror true 0.

(** ** Further vocabulary *)

(** A directory whose name ends with the build and the kit suffix. *)
Definition has_suffix (build : string) (f : kdk_folder) : bool :=
  is_dir f && PyStr.endswith (name f) (build ++ ".kdk").

(** The state after the privileged removal of [f]. *)
Definition without (f : kdk_folder) (st : state) : state :=
  mkState
    (option_map (filter (fun g => negb (String.eqb (name g) (name f))))
       (kdks st))
    (Remove (name f) :: log st).

(** No other entry of the listing has the name of [f]. *)
Definition sole_name (f : kdk_folder) (l : list kdk_folder) : Prop :=
  forall g, In g l -> name g = name f -> g = f.


(** What [m] returns satisfies [Q], and what it raises satisfies [P]. *)
Definition yields {A} (Q : A -> Prop) (P : exn -> Prop) (m : M A) : Prop :=
  forall st,
    match m st with
    | Ok (a, _) => Q a
    | Raise e => P e
    end.

(** Nothing is asked of what a computation raises. *)
Definition any_exception (e : exn) : Prop := True.

(** The messages [download_kdk] returns with False (lines 174-226). *)
Definition failure_messages : list string :=
  [ msg_no_closest; msg_no_closest_on_servers; msg_no_backup; msg_unknown;
    msg_no_internet; msg_checksum; msg_download_failed ].

Definition known_outcome (o : outcome) : Prop :=
  match o with
  | (true, msg, _) => msg = ""
  | (false, msg, build) => build = "" /\ In msg failure_messages
  end.

(** The transfer of [link] was answered True and the image verification
    that followed it returned 0; a link that mentions github goes through
    [download_file], any other through the developer portal. *)
Definition transferred_and_verified (w : World) (link : string) : Prop :=
  exists h,
    if PyStr.contains "github" link
    then download_file w h link = true
         /\ hdiutil_verify w (DownloadFile link :: h) = 0%Z
    else download_apple_developer_portal w h link = true
         /\ hdiutil_verify w (DownloadPortal link :: h) = 0%Z.

(** What one run did about transfers: none, or exactly one, which on
    success was verified. *)
Definition transfer_account (w : World) (st st' : state) (ok : bool) : Prop :=
  transferred (log st') = transferred (log st)
  \/ exists link,
       transferred (log st') = link :: transferred (log st)
       /\ (ok = true -> transferred_and_verified w link).

(** A computation that leaves the cache directory as it is. *)
Definition stable {A} (m : M A) : Prop :=
  forall st a st', m st = Ok (a, st') -> kdks st' = kdks st.

(** A computation that keeps a property of the listing of the cache. *)
Definition preserves {A} (I : list kdk_folder -> Prop) (m : M A) : Prop :=
  forall st a st', m st = Ok (a, st') -> I (listing st) -> I (listing st').

(** A computation that keeps a property of the listing whenever the outcome
    it returns is a failure. *)
Definition preserves_on_failure (I : list kdk_folder -> Prop) (m : M outcome)
  : Prop :=
  forall st o st',
    m st = Ok (o, st') -> fst (fst o) = false ->
    I (listing st) -> I (listing st').

(** * Properties *)

(** ** The functions on small inputs *)

Example endswith_build_suffix :
  PyStr.endswith "KDK_14.4_23E214.kdk" ("23E214" ++ ".kdk") = true
  /\ PyStr.endswith "KDK_14.4_23E214.kdk" ("23D56" ++ ".kdk") = false
  /\ PyStr.endswith "kdk" ".kdk" = false.
Proof. repeat split. Qed.

Example contains_github :
  PyStr.contains "github"
    "https://github.com/dortania/KdkSupportPkg/releases/download/x/y.dmg"
  = true
  /\ PyStr.contains "github" (k_url kdk_23E214) = false.
Proof. split; reflexivity. Qed.

Example parse_versions :
  PkgVersion.parse "14.4" = Ok (PkgVersion.mkVersion [14%N; 4%N])
  /\ PkgVersion.parse "14.4.0" = Ok (PkgVersion.mkVersion [14%N; 4%N; 0%N])
  /\ PkgVersion.parse "unknown" = Raise (InvalidVersion "unknown")
  /\ PkgVersion.parse "14.4b1" = Raise (Unmodelled "14.4b1")
  /\ PkgVersion.release_text "14.4.1" = true
  /\ PkgVersion.release_text "14.4b1" = false.
Proof. repeat split. Qed.

Example compare_versions :
  PkgVersion.compare (PkgVersion.mkVersion [14%N; 4%N])
    (PkgVersion.mkVersion [14%N; 4%N; 0%N]) = Eq
  /\ PkgVersion.leb (PkgVersion.mkVersion [14%N; 3%N; 1%N])
       (PkgVersion.mkVersion [14%N; 4%N]) = true
  /\ PkgVersion.leb (PkgVersion.mkVersion [14%N; 10%N])
       (PkgVersion.mkVersion [14%N; 9%N]) = false
  /\ PkgVersion.minor (PkgVersion.mkVersion [14%N]) = 0%Z.
Proof. repeat split. Qed.

Example str_version :
  PkgVersion.str (PkgVersion.mkVersion [14%N; 4%N; 1%N]) = "14.4.1"
  /\ result_bind (PkgVersion.parse "014.04") (fun v => Ok (PkgVersion.str v))
     = Ok "14.4".
Proof. split; reflexivity. Qed.

Example fromisoformat_dates :
  PyDate.fromisoformat "2024-02-29" = Ok (PyDate.mkDate 2024 2 29)
  /\ PyDate.fromisoformat "2023-02-29" = Raise (ValueError "2023-02-29")
  /\ PyDate.fromisoformat "" = Raise (ValueError "")
  /\ PyDate.fromisoformat "unknown" = Raise (ValueError "unknown")
  /\ PyDate.fromisoformat "2024-03-07T10:00:00+01:00"
     = Raise (Unmodelled "2024-03-07T10:00:00+01:00")
  /\ PyDate.fromisoformat "1984-01-01" = Ok (PyDate.mkDate 1984 1 1).
Proof. repeat split. Qed.

Example version_pattern_matches :
  version_pattern_match "14.4 beta 2" = Ok (Some "14.4")
  /\ version_pattern_match "14.4.1.5" = Ok (Some "14.4.1")
  /\ version_pattern_match "14.4." = Ok (Some "14.4")
  /\ version_pattern_match "14" = Ok None
  /\ version_pattern_match "Rhapsody 5.0" = Ok None.
Proof. repeat split. Qed.

Example path_of_link_sample :
  path_of_link (k_url kdk_23E214)
  = Ok "/macOS/Kernel_Debug_Kit_14.4_build_23E214/Kernel_Debug_Kit_14.4_build_23E214.dmg"
  /\ path_of_link "https://example.org" = Ok ""
  /\ path_of_link "https://[example.org/b.dmg"
     = Raise (ValueError "Invalid IPv6 URL")
  /\ path_of_link "https://example.org/a b.dmg"
     = Raise (Unmodelled "https://example.org/a b.dmg").
Proof. repeat split. Qed.

Example generate_kdk_link_sample :
  generate_kdk_link "14.4" "23E214" = k_url kdk_23E214.
Proof. reflexivity. Qed.

Example sorted_reverse_sample :
  sorted_reverse kdk_sort_key [kdk_22A380; kdk_23E214; kdk_23D56]
  = Ok [kdk_23E214; kdk_23D56; kdk_22A380].
Proof. reflexivity. Qed.

Example find_mirror_sample :
  find_mirror "23E214"
    [mkRelease "23D56" [mkAsset "a.dmg" "https://github.com/a.dmg"];
     mkRelease "23E214" [mkAsset "notes.txt" "https://github.com/notes.txt"];
     mkRelease "23E214" [mkAsset "b.dmg" "https://github.com/b.dmg"]]
  = Some "https://github.com/b.dmg".
Proof. reflexivity. Qed.

Example is_kdk_installed_sample :
  is_kdk_installed "23D56" cache_damaged_first
  = Ok (true, cache_damaged_first)
  /\ is_kdk_installed "22A380" cache_damaged_first
     = Ok (false,
           mkState (Some [kit "KDK_14.3_23D56.kdk"])
             [Remove "KDK_13.0_22A380.kdk"])
  /\ is_kdk_installed "23E214" no_cache = Ok (false, no_cache).
Proof. repeat split. Qed.

Example download_kdk_exact_sample :
  download_kdk world_exact sample_constants "14.4" "23E214" cache_one_kit
  = Ok ((true, "", "23E214"),
        mkState (kdks cache_one_kit)
          [HdiutilVerify; DownloadPortal (k_url kdk_23E214);
           GetToken (k_url kdk_23E214); CheckNetwork; GetKdkApi]).
Proof. reflexivity. Qed.

Example download_kdk_closest_sample :
  download_kdk world_older_only sample_constants "14.4" "23E214" no_cache
  = Ok ((true, "", "23E214"),
        mkState None
          [HdiutilVerify; DownloadPortal (k_url kdk_23D56);
           GetToken (k_url kdk_23D56); CheckNetwork; GetKdkApi]).
Proof. reflexivity. Qed.

(** ** The cache manager *)

Lemma filter_twice {A} (p q : A -> bool) (l : list A) :
  filter p (filter q l) = filter (fun x => q x && p x) l.
Proof.
  induction l as [|x l IH]; simpl; [reflexivity|].
  destruct (q x); simpl; [destruct (p x); simpl|]; now rewrite IH.
Qed.

(** The pruning loop removes exactly the names of the doomed kits of the
    listing it iterates over, in order, whatever the state it starts in. *)
Lemma remove_unused_loop_spec (exclude_builds : list string)
  (folders : list kdk_folder) (st : state) :
  remove_unused_loop exclude_builds folders st =
  Ok (tt,
      mkState
        (option_map
           (filter (fun f =>
              negb (existsb (String.eqb (name f))
                      (doomed_names exclude_builds folders))))
           (kdks st))
        (rev (map Remove (doomed_names exclude_builds folders)) ++ log st)).
Proof.
  revert st.
  induction folders as [|a folders IH]; intros [k lg]; simpl.
  - unfold ret. simpl. f_equal. f_equal. f_equal.
    destruct k as [l|]; simpl; [|reflexivity].
    now rewrite filter_true.
  - unfold doomed_names, doomed, is_kit, bind at 1. simpl.
    destruct (is_dir a && PyStr.endswith (name a) ".kdk")%bool; simpl;
      [ destruct (kept exclude_builds (name a)); simpl | ].
    + rewrite IH. reflexivity.
    + rewrite IH. simpl. f_equal. f_equal. f_equal.
      * destruct k as [l|]; simpl; [|reflexivity].
        rewrite filter_twice. f_equal.
        apply filter_ext. intros f. now rewrite negb_orb.
      * rewrite <- app_assoc. reflexivity.
    + rewrite IH. reflexivity.
Qed.

Lemma doomed_names_none (exclude_builds : list string)
  (folders : list kdk_folder) :
  (forall f, In f folders -> doomed exclude_builds f = false) ->
  doomed_names exclude_builds folders = [].
Proof.
  intros H. unfold doomed_names.
  induction folders as [|a l IH]; simpl; [reflexivity|].
  rewrite (H a (or_introl eq_refl)). apply IH.
  intros f Hf. apply H. now right.
Qed.

Lemma existsb_name_self (exclude_builds : list string)
  (folders : list kdk_folder) (f : kdk_folder) :
  In f folders -> doomed exclude_builds f = true ->
  existsb (String.eqb (name f)) (doomed_names exclude_builds folders) = true.
Proof.
  intros Hin Hd. apply existsb_exists. exists (name f). split.
  - unfold doomed_names. apply in_map. apply filter_In. now split.
  - apply String.eqb_refl.
Qed.

Lemma existsb_name_doomed (exclude_builds : list string)
  (folders : list kdk_folder) (n : string) :
  existsb (String.eqb n) (doomed_names exclude_builds folders) = true ->
  PyStr.endswith n ".kdk" = true /\ kept exclude_builds n = false.
Proof.
  intros H. apply existsb_exists in H. destruct H as [m [Hm Heq]].
  apply String.eqb_eq in Heq. subst m.
  unfold doomed_names in Hm. apply in_map_iff in Hm.
  destruct Hm as [g [Hg Hin]]. apply filter_In in Hin.
  destruct Hin as [_ Hd]. unfold doomed, is_kit in Hd.
  rewrite Hg in Hd.
  apply andb_prop in Hd. destruct Hd as [Hk Hn].
  apply andb_prop in Hk. destruct Hk as [_ Hs].
  split; [exact Hs|]. now apply negb_true_iff.
Qed.

Lemma kept_true_iff (exclude_builds : list string) (n : string) :
  kept exclude_builds n = true <->
  exists b, In b exclude_builds /\ b <> "" /\
            PyStr.endswith n (b ++ ".kdk") = true.
Proof.
  unfold kept. rewrite existsb_exists. split.
  - intros [b [Hin Hb]]. apply andb_prop in Hb. destruct Hb as [Hne He].
    exists b. repeat split; try assumption.
    apply negb_true_iff in Hne. now apply String.eqb_neq.
  - intros [b [Hin [Hne He]]]. exists b. split; [assumption|].
    apply andb_true_intro. split; [|assumption].
    apply negb_true_iff. now apply String.eqb_neq.
Qed.

Lemma removed_map_Remove (ns : list string) : removed (map Remove ns) = ns.
Proof. induction ns as [|n ns IH]; simpl; now rewrite ?IH. Qed.

(** What a call of [remove_unused_kdks] that passes its three guards does. *)
Lemma remove_unused_kdks_active (constants : Constants)
  (exclude_builds : list string) (st : state) (folders : list kdk_folder) :
  should_nuke_kdks constants = true ->
  kdks st = Some folders ->
  exclude_builds <> [] ->
  remove_unused_kdks constants exclude_builds st =
  Ok (tt,
      mkState
        (Some (filter (fun f =>
                 negb (existsb (String.eqb (name f))
                         (doomed_names exclude_builds folders)))
                 folders))
        (rev (map Remove (doomed_names exclude_builds folders)) ++ log st)).
Proof.
  intros Hn Hk He. unfold remove_unused_kdks. rewrite Hn, Hk. simpl.
  destruct exclude_builds as [|b bs]; [congruence|].
  rewrite remove_unused_loop_spec, Hk. reflexivity.
Qed.

(** The three guards (lines 251-258): a guarded call returns at once. *)
Lemma remove_unused_kdks_guard (constants : Constants)
  (exclude_builds : list string) (st : state) :
  should_nuke_kdks constants = false \/ kdks st = None \/ exclude_builds = [] ->
  remove_unused_kdks constants exclude_builds st = Ok (tt, st).
Proof.
  intros [H | [H | H]]; unfold remove_unused_kdks.
  - now rewrite H.
  - rewrite H. now destruct (should_nuke_kdks constants).
  - rewrite H. destruct (should_nuke_kdks constants); simpl; [|reflexivity].
    now destruct (kdks st).
Qed.

(** C7, as the code has it: pruning keeps every entry of the cache root
    whose name does not end in the kit suffix, and every entry whose name
    ends with b.kdk for a build b of the exclusion list that is not the
    empty string; no removal is issued for its name. *)
Theorem remove_unused_kdks_keeps (constants : Constants)
  (exclude_builds : list string) (st : state) (f : kdk_folder) :
  In f (listing st) ->
  PyStr.endswith (name f) ".kdk" = false \/
  (exists b, In b exclude_builds /\ b <> "" /\
             PyStr.endswith (name f) (b ++ ".kdk") = true) ->
  exists st' new,
    remove_unused_kdks constants exclude_builds st = Ok (tt, st') /\
    log st' = (new ++ log st)%list /\
    In f (listing st') /\
    ~ In (name f) (removed new).
Proof.
  intros Hin Hsafe.
  assert (Hnot : forall folders,
             existsb (String.eqb (name f))
               (doomed_names exclude_builds folders) = false).
  { intros folders.
    destruct (existsb _ _) eqn:E; [|reflexivity].
    apply existsb_name_doomed in E. destruct E as [Hs Hk].
    destruct Hsafe as [Hs' | Hb]; [congruence|].
    apply kept_true_iff in Hb. congruence. }
  destruct (should_nuke_kdks constants) eqn:Hn.
  - destruct (kdks st) as [folders|] eqn:Hk.
    + destruct exclude_builds as [|b bs] eqn:He.
      * exists st, []. rewrite remove_unused_kdks_guard by auto.
        repeat split; auto.
      * rewrite <- He in *.
        eexists. exists (rev (map Remove (doomed_names exclude_builds folders))).
        rewrite (remove_unused_kdks_active _ _ _ folders) by congruence.
        split; [reflexivity|]. split; [reflexivity|].
        unfold listing in *. rewrite Hk in Hin. simpl. split.
        -- apply filter_In. split; [assumption|]. now rewrite Hnot.
        -- intros Hr. rewrite <- map_rev, removed_map_Remove in Hr.
           apply in_rev in Hr.
           assert (E : existsb (String.eqb (name f))
                         (doomed_names exclude_builds folders) = true).
           { apply existsb_exists. exists (name f).
             split; [assumption | apply String.eqb_refl]. }
           rewrite Hnot in E. discriminate.
    + exists st, []. rewrite remove_unused_kdks_guard by auto.
      repeat split; auto.
  - exists st, []. rewrite remove_unused_kdks_guard by auto.
    repeat split; auto.
Qed.

(** C9: a second pruning with the same exclusion list changes nothing:
    neither the listing of the cache directory nor the log of removals. *)
Theorem remove_unused_kdks_idempotent (constants : Constants)
  (exclude_builds : list string) (st : state) :
  exists st1,
    remove_unused_kdks constants exclude_builds st = Ok (tt, st1) /\
    remove_unused_kdks constants exclude_builds st1 = Ok (tt, st1).
Proof.
  destruct (should_nuke_kdks constants) eqn:Hn.
  - destruct (kdks st) as [folders|] eqn:Hk.
    + destruct exclude_builds as [|b bs] eqn:He.
      * exists st. split; apply remove_unused_kdks_guard; auto.
      * rewrite <- He in *.
        assert (Hne : exclude_builds <> []) by congruence.
        eexists. split.
        -- apply (remove_unused_kdks_active _ _ _ folders); assumption.
        -- set (kept_folders :=
                  filter (fun f =>
                    negb (existsb (String.eqb (name f))
                            (doomed_names exclude_builds folders))) folders).
           rewrite (remove_unused_kdks_active _ _ _ kept_folders);
             [|assumption|reflexivity|assumption].
           assert (Hnone : doomed_names exclude_builds kept_folders = []).
           { apply doomed_names_none. intros f Hf.
             apply filter_In in Hf. destruct Hf as [Hf Hx].
             destruct (doomed exclude_builds f) eqn:Hd; [|reflexivity].
             rewrite (existsb_name_self _ _ _ Hf Hd) in Hx. discriminate. }
           rewrite Hnone. simpl. now rewrite filter_true.
    + exists st. split; apply remove_unused_kdks_guard; auto.
  - exists st. split; apply remove_unused_kdks_guard; auto.
Qed.

(** C8: pruning does nothing at all, neither to the cache directory nor to
    the log of external actions, when it is disabled by configuration, when
    the cache root does not exist, or when the exclusion list is empty. *)
Theorem remove_unused_kdks_noop (constants : Constants)
  (exclude_builds : list string) (st : state) :
  should_nuke_kdks constants = false \/ kdks st = None \/ exclude_builds = [] ->
  remove_unused_kdks constants exclude_builds st = Ok (tt, st).
Proof.
  intros H. unfold remove_unused_kdks.
  destruct H as [H | [H | H]]; rewrite H.
  - reflexivity.
  - now destruct (should_nuke_kdks constants).
  - destruct (should_nuke_kdks constants); simpl; [|reflexivity].
    now destruct (kdks st).
Qed.

Lemma remove_unused_kdks_noop_witness :
  remove_unused_kdks sample_constants [] cache_two_kits = Ok (tt, cache_two_kits)
  /\ remove_unused_kdks sample_constants ["23E214"] (mkState None [])
     = Ok (tt, mkState None [])
  /\ remove_unused_kdks (mkConstants false "1.0.0" "/tmp/KDK.dmg") ["23E214"]
       cache_two_kits = Ok (tt, cache_two_kits).
Proof.
  split; [|split].
  - apply (remove_unused_kdks_noop sample_constants [] cache_two_kits).
    right. right. reflexivity.
  - apply (remove_unused_kdks_noop sample_constants ["23E214"]
             (mkState None [])).
    right. left. reflexivity.
  - apply (remove_unused_kdks_noop (mkConstants false "1.0.0" "/tmp/KDK.dmg")
             ["23E214"] cache_two_kits).
    left. reflexivity.
Defined.

Lemma remove_unused_kdks_keeps_witness :
  exists st' new,
    remove_unused_kdks sample_constants ["23E214"] cache_two_kits
    = Ok (tt, st') /\
    log st' = (new ++ log cache_two_kits)%list /\
    In (kit "KDK_14.4_23E214.kdk") (listing st') /\
    ~ In (name (kit "KDK_14.4_23E214.kdk")) (removed new).
Proof.
  apply (remove_unused_kdks_keeps sample_constants ["23E214"] cache_two_kits
           (kit "KDK_14.4_23E214.kdk")).
  - simpl. left. reflexivity.
  - right. exists "23E214". split; [simpl; left; reflexivity|].
    split; [discriminate | reflexivity].
Defined.

(** The empty string protects nothing: with the exclusion list the
    orchestrator passes when it has no closest candidate, a kit whose name
    ends with the empty build followed by the suffix is removed. *)
Lemma remove_unused_kdks_empty_build_removed :
  In "" ["23E214"; ""] /\
  In (kit "KDK_14.3_23D56.kdk") (listing cache_one_kit) /\
  PyStr.endswith (name (kit "KDK_14.3_23D56.kdk")) ("" ++ ".kdk") = true /\
  remove_unused_kdks sample_constants ["23E214"; ""] cache_one_kit
  = Ok (tt, mkState (Some []) [Remove "KDK_14.3_23D56.kdk"]).
Proof.
  split; [simpl; auto|]. split; [simpl; auto|]. split; reflexivity.
Defined.

(** ** The portal probe *)

(** The probe, unfolded: one connectivity check, then the parse of the
    link, then at most one token request, asked after that check. *)
Lemma verify_apple_developer_portal_unfold (w : World) (link : string)
  (st : state) :
  verify_apple_developer_portal w link st =
  if verify_network_connection w (log st) then
    match urlparse_path w link with
    | Raise e => Raise e
    | Ok remote_path =>
        let st' :=
          mkState (kdks st) (GetToken link :: CheckNetwork :: log st) in
        match token_endpoint w (CheckNetwork :: log st) remote_path with
        | Failed _ => Ok (2%Z, st')
        | Response status_code text _ =>
            if raises_for_status status_code then
              if (status_code =? 400)%Z
                 && PyStr.contains "The path specified is invalid" text
              then Ok (1%Z, st')
              else Ok (2%Z, st')
            else Ok (0%Z, st')
        end
    end
  else Ok (3%Z, mkState (kdks st) (CheckNetwork :: log st)).
Proof.
  unfold verify_apple_developer_portal, bind, perform, lift, ret. simpl.
  destruct (verify_network_connection w (log st)); simpl; [|reflexivity].
  destruct (urlparse_path w link) as [remote_path|e]; [|reflexivity].
  simpl.
  destruct (token_endpoint w (CheckNetwork :: log st) remote_path)
    as [e | status_code text j]; [reflexivity|].
  destruct (raises_for_status status_code); [|reflexivity].
  now destruct ((status_code =? 400)%Z
                && PyStr.contains "The path specified is invalid" text).
Qed.

Lemma raises_for_status_iff (status_code : Z) :
  raises_for_status status_code = true <-> (400 <= status_code < 600)%Z.
Proof. unfold raises_for_status. lia. Qed.

(** C4, as the code has it: the probe answers NetworkDown when the
    connectivity check fails, whatever the link.  When the check passes, a
    link that [urlparse] rejects makes the probe raise the exception of
    [urlparse]; for a link it accepts, the probe answers PortalDown when the
    token request raises one of the three request exceptions, Unavailable
    when the status is 400 and the text has the invalid-path sentence,
    PortalDown for every other status from 400 to 599, and Available for
    every status outside 400 to 599. *)
Theorem verify_apple_developer_portal_cases (w : World) (link : string)
  (st : state) :
  let up := verify_network_connection w (log st) in
  let answers (code : Z) :=
    exists st', verify_apple_developer_portal w link st = Ok (code, st') in
  (up = false -> answers NetworkDown) /\
  (up = true -> forall e,
     urlparse_path w link = Raise e ->
     verify_apple_developer_portal w link st = Raise e) /\
  (up = true -> forall remote_path,
     urlparse_path w link = Ok remote_path ->
     let reply := token_endpoint w (CheckNetwork :: log st) remote_path in
     (forall e, reply = Failed e -> answers PortalDown) /\
     (forall text j,
        reply = Response 400 text j ->
        PyStr.contains "The path specified is invalid" text = true ->
        answers Unavailable) /\
     (forall status_code text j,
        reply = Response status_code text j ->
        (400 <= status_code < 600)%Z ->
        ~ (status_code = 400%Z /\
           PyStr.contains "The path specified is invalid" text = true) ->
        answers PortalDown) /\
     (forall status_code text j,
        reply = Response status_code text j ->
        ~ (400 <= status_code < 600)%Z ->
        answers Available)).
Proof.
  intros up answers. subst up answers. cbv beta.
  rewrite verify_apple_developer_portal_unfold.
  split; [|split].
  - intros ->. eexists; reflexivity.
  - intros -> e ->. reflexivity.
  - intros -> remote_path ->. cbv zeta. repeat split.
    + intros e ->. eexists; reflexivity.
    + intros text j -> ->. simpl. eexists; reflexivity.
    + intros status_code text j -> Hr Hn.
      apply raises_for_status_iff in Hr. rewrite Hr.
      destruct ((status_code =? 400)%Z
                && PyStr.contains "The path specified is invalid" text) eqn:E;
        [|eexists; reflexivity].
      apply andb_prop in E. destruct E as [E1 E2].
      apply Z.eqb_eq in E1. exfalso. apply Hn. now split.
    + intros status_code text j -> Hr.
      destruct (raises_for_status status_code) eqn:E;
        [|eexists; reflexivity].
      apply raises_for_status_iff in E. contradiction.
Qed.

(** The five answers and the exception on sample environments. *)
Lemma verify_apple_developer_portal_cases_witness :
  let link := k_url kdk_23E214 in
  let answers (w : World) (code : Z) :=
    exists st', verify_apple_developer_portal w link no_cache = Ok (code, st') in
  answers world_offline NetworkDown /\
  answers world_timeouts PortalDown /\
  answers world_nothing_served Unavailable /\
  answers world_portal_error PortalDown /\
  answers world_exact Available /\
  verify_apple_developer_portal world_exact "https://[example.org/b.dmg"
    no_cache
  = Raise (ValueError "Invalid IPv6 URL").
Proof.
  pose (link := k_url kdk_23E214).
  pose (path := "/macOS/Kernel_Debug_Kit_14.4_build_23E214/Kernel_Debug_Kit_14.4_build_23E214.dmg").
  pose (cases := fun w => verify_apple_developer_portal_cases w link no_cache).
  refine (conj _ (conj _ (conj _ (conj _ (conj _ _))))).
  - exact (proj1 (cases world_offline) eq_refl).
  - exact (proj1 (proj2 (proj2 (cases world_timeouts)) eq_refl path eq_refl)
             Timeout eq_refl).
  - exact (proj1 (proj2 (proj2 (proj2 (cases world_nothing_served))
                           eq_refl path eq_refl))
             "The path specified is invalid" tt eq_refl eq_refl).
  - refine (proj1 (proj2 (proj2 (proj2 (proj2 (cases world_portal_error))
                                   eq_refl path eq_refl)))
              503%Z "" tt eq_refl _ _);
      [lia | intros [H _]; discriminate H].
  - refine (proj2 (proj2 (proj2 (proj2 (proj2 (cases world_exact))
                                   eq_refl path eq_refl)))
              200%Z "ok" tt eq_refl _); lia.
  - exact (proj1 (proj2 (verify_apple_developer_portal_cases world_exact
                           "https://[example.org/b.dmg" no_cache))
             eq_refl (ValueError "Invalid IPv6 URL") eq_refl).
Defined.

(** A status that is neither a success nor an error status, 304 Not
    Modified: [raise_for_status] does not raise, and the probe answers
    Available, not PortalDown.  A link with an unbalanced bracket makes the
    probe raise instead of answering. *)
Lemma verify_apple_developer_portal_not_modified :
  let link := k_url kdk_23E214 in
  verify_apple_developer_portal world_not_modified link no_cache
  = Ok (Available, mkState None [GetToken link; CheckNetwork]) /\
  Available <> PortalDown /\
  ~ (200 <= 304 < 300)%Z /\
  verify_apple_developer_portal world_not_modified
    "https://[example.org/b.dmg" no_cache
  = Raise (ValueError "Invalid IPv6 URL").
Proof.
  split; [reflexivity|]. split; [discriminate|]. split; [lia | reflexivity].
Defined.

(** ** Ordering of the sort keys *)

Lemma cmp_eq_r {K} (cmp : K -> K -> comparison) `{TotalCompare K cmp}
  (a b c : K) : cmp b c = Eq -> cmp a b = cmp a c.
Proof.
  intros E.
  rewrite (cmp_opp (cmp := cmp) b a), (cmp_opp (cmp := cmp) c a). f_equal.
  now apply (cmp_eq_l (cmp := cmp)).
Qed.


#[local] Instance N_compare_total : TotalCompare N.compare.
Proof.
  split.
  - intros a b. apply N.compare_antisym.
  - intros a b c E. apply N.compare_eq in E. now subst.
  - intros a b c. rewrite !N.compare_lt_iff. lia.
Qed.

(** A comparison read through a function. *)
Lemma compare_through {K L} (f : L -> K) (cmp : K -> K -> comparison)
  `{TotalCompare K cmp} : TotalCompare (fun a b => cmp (f a) (f b)).
Proof.
  split.
  - intros a b. apply (cmp_opp (cmp := cmp)).
  - intros a b c. apply (cmp_eq_l (cmp := cmp)).
  - intros a b c. apply (cmp_lt_trans (cmp := cmp)).
Qed.

(** The comparison of pairs, the first components deciding first. *)
Lemma compare_lexicographic {K L} (c1 : K -> K -> comparison)
  (c2 : L -> L -> comparison) `{TotalCompare K c1} `{TotalCompare L c2} :
  TotalCompare (fun a b : K * L =>
                  match c1 (fst a) (fst b) with
                  | Eq => c2 (snd a) (snd b)
                  | c => c
                  end).
Proof.
  split.
  - intros [a1 a2] [b1 b2]. simpl.
    rewrite (cmp_opp (cmp := c1) a1 b1), (cmp_opp (cmp := c2) a2 b2).
    now destruct (c1 a1 b1).
  - intros [a1 a2] [b1 b2] [c1' c2']. simpl.
    destruct (c1 a1 b1) eqn:E1; try discriminate.
    intros E2. rewrite (cmp_eq_l (cmp := c1) a1 b1 c1' E1).
    destruct (c1 b1 c1'); [|reflexivity|reflexivity].
    now apply (cmp_eq_l (cmp := c2)).
  - intros [a1 a2] [b1 b2] [c1' c2']. simpl.
    destruct (c1 a1 b1) eqn:E1; try discriminate.
    + rewrite (cmp_eq_l (cmp := c1) a1 b1 c1' E1).
      destruct (c1 b1 c1'); try discriminate; [|reflexivity].
      apply (cmp_lt_trans (cmp := c2)).
    + intros _.
      destruct (c1 b1 c1') eqn:E2; try discriminate.
      * intros _. now rewrite <- (cmp_eq_r c1 a1 b1 c1' E2), E1.
      * intros _. now rewrite (cmp_lt_trans (cmp := c1) a1 b1 c1' E1 E2).
Qed.

#[local] Instance tuple_compare_total : TotalCompare PkgVersion.tuple_compare.
Proof.
  split.
  - intros a. induction a as [|x a IH]; intros [|y b]; simpl; try reflexivity.
    rewrite (N.compare_antisym x y).
    destruct (x ?= y)%N; simpl; [apply IH|reflexivity|reflexivity].
  - intros a. induction a as [|x a IH]; intros [|y b] c; simpl;
      try discriminate; [reflexivity|].
    destruct (x ?= y)%N eqn:E; try discriminate.
    apply N.compare_eq in E. subst y. intros Eab.
    destruct c as [|z c]; [reflexivity|].
    destruct (x ?= z)%N; [now apply IH|reflexivity|reflexivity].
  - intros a. induction a as [|x a IH]; intros [|y b] [|z c]; simpl;
      try discriminate; try reflexivity.
    destruct (x ?= y)%N eqn:Exy; try discriminate.
    + apply N.compare_eq in Exy. subst y.
      destruct (x ?= z)%N; try discriminate; [apply IH|reflexivity].
    + intros _. destruct (y ?= z)%N eqn:Eyz; try discriminate.
      * apply N.compare_eq in Eyz. subst z. now rewrite Exy.
      * intros _. rewrite N.compare_lt_iff in Exy, Eyz.
        assert (E : (x ?= z)%N = Lt) by (apply N.compare_lt_iff; lia).
        now rewrite E.
Qed.

#[local] Instance version_compare_total : TotalCompare PkgVersion.compare.
Proof. exact (compare_through PkgVersion.key PkgVersion.tuple_compare). Qed.

#[local] Instance date_compare_total : TotalCompare PyDate.compare.
Proof.
  exact (compare_through
           (fun d => (PyDate.year d, (PyDate.month d, PyDate.day d)))
           _ (H := compare_lexicographic N.compare _
                     (H0 := compare_lexicographic N.compare N.compare))).
Qed.

#[local] Instance key_compare_total : TotalCompare key_compare.
Proof. exact (compare_lexicographic PkgVersion.compare PyDate.compare). Qed.




(** ** The descending stable sort *)

Section SortFacts.

Context {A : Type}.

Implicit Types (x : sort_key * A) (l : list (sort_key * A)).





Variable key : A -> result sort_key.

Let decorate (a : A) : result (sort_key * A) :=
  result_bind (key a) (fun k => Ok (k, a)).




(** A record without a key aborts the sort. *)
Lemma sorted_reverse_raises (rs : list A) :
  ~ Forall (has_key key) rs ->
  exists e, sorted_reverse key rs = Raise e.
Proof.
  intros H. unfold sorted_reverse. fold decorate.
  assert (E : exists e, result_map decorate rs = Raise e).
  { induction rs as [|a rs IH]; [exfalso; apply H; constructor|].
    simpl. unfold decorate at 1.
    destruct (key a) as [k|e] eqn:Hk; simpl; [|now exists e].
    destruct (result_map decorate rs) as [kl|e] eqn:Hm; simpl;
      [|now exists e].
    exfalso. destruct IH as [e He]; [|discriminate].
    intros Hf. apply H. constructor; [now exists k|assumption]. }
  destruct E as [e E]. exists e. now rewrite E.
Qed.

End SortFacts.

(** ** The catalogue client *)











(** ** The legacy matcher *)

Lemma string_app_assoc (a b c : string) : (a ++ b) ++ c = a ++ (b ++ c).
Proof. induction a as [|x a IH]; simpl; [reflexivity | now rewrite IH]. Qed.

Lemma digit_is_not_dot (c : ascii) :
  PyStr.is_digit c = true -> Ascii.eqb c "."%char = false.
Proof.
  intros H. destruct (Ascii.eqb c "."%char) eqn:E; [|reflexivity].
  apply Ascii.eqb_eq in E. subst c. discriminate H.
Qed.

Lemma span_digits_all_digits (s d r : string) :
  PyStr.span_digits s = (d, r) -> PyStr.all_digits d = true.
Proof.
  revert d r. induction s as [|c s IH]; simpl; intros d r H.
  - now inversion H.
  - destruct (PyStr.is_digit c) eqn:Hc.
    + destruct (PyStr.span_digits s) as [d' r'].
      specialize (IH d' r' eq_refl).
      inversion H; subst. simpl. now rewrite Hc.
    + now inversion H.
Qed.

Lemma span_digits_append (s d r : string) :
  PyStr.span_digits s = (d, r) -> s = d ++ r.
Proof.
  revert d r. induction s as [|c s IH]; simpl; intros d r H.
  - now inversion H.
  - destruct (PyStr.is_digit c).
    + destruct (PyStr.span_digits s) as [d' r'].
      specialize (IH d' r' eq_refl). inversion H; subst. reflexivity.
    + now inversion H.
Qed.

(** The digits are taken as long as they go. *)
Lemma span_digits_ends (s d r : string) :
  PyStr.span_digits s = (d, r) -> ends_number r.
Proof.
  revert d r. induction s as [|c s IH]; simpl; intros d r H.
  - inversion H. exact I.
  - destruct (PyStr.is_digit c) eqn:Hc.
    + destruct (PyStr.span_digits s) as [d' r'].
      specialize (IH d' r' eq_refl). now inversion H; subst.
    + inversion H; subst. exact Hc.
Qed.


Lemma split_dots_digits (d : string) :
  PyStr.all_digits d = true -> PyStr.split_dots d = [d].
Proof.
  induction d as [|c d IH]; simpl; [reflexivity|].
  intros H. apply andb_prop in H. destruct H as [Hc Hd].
  rewrite (digit_is_not_dot c Hc), (IH Hd). reflexivity.
Qed.

Lemma split_dots_digits_dot (d rest : string) :
  PyStr.all_digits d = true ->
  PyStr.split_dots (d ++ String "."%char rest) = d :: PyStr.split_dots rest.
Proof.
  induction d as [|c d IH]; simpl; [reflexivity|].
  intros H. apply andb_prop in H. destruct H as [Hc Hd].
  rewrite (digit_is_not_dot c Hc), (IH Hd). reflexivity.
Qed.

Lemma decimal_truthy (d : string) : decimal d -> PyStr.truthy d = true.
Proof. intros [Hne _]. now destruct d. Qed.

Lemma parse_two_release (a b : string) :
  decimal a -> decimal b ->
  PkgVersion.parse (a ++ "." ++ b)
  = Ok (PkgVersion.mkVersion [PyStr.int_of_digits a; PyStr.int_of_digits b]).
Proof.
  intros Ha Hb. unfold PkgVersion.parse.
  change ("." ++ b) with (String "."%char b).
  rewrite (split_dots_digits_dot _ _ (proj2 Ha)), (split_dots_digits _ (proj2 Hb)).
  cbn [PkgVersion.parse_components]. unfold PkgVersion.parse_component.
  now rewrite (proj2 Ha), (decimal_truthy _ Ha), (proj2 Hb),
    (decimal_truthy _ Hb).
Qed.

Lemma parse_three_release (a b c : string) :
  decimal a -> decimal b -> decimal c ->
  PkgVersion.parse (a ++ "." ++ b ++ "." ++ c)
  = Ok (PkgVersion.mkVersion
          [PyStr.int_of_digits a; PyStr.int_of_digits b;
           PyStr.int_of_digits c]).
Proof.
  intros Ha Hb Hc. unfold PkgVersion.parse.
  change ("." ++ b ++ "." ++ c) with (String "."%char (b ++ String "."%char c)).
  rewrite (split_dots_digits_dot _ _ (proj2 Ha)),
    (split_dots_digits_dot _ _ (proj2 Hb)), (split_dots_digits _ (proj2 Hc)).
  cbn [PkgVersion.parse_components]. unfold PkgVersion.parse_component.
  now rewrite (proj2 Ha), (decimal_truthy _ Ha), (proj2 Hb),
    (decimal_truthy _ Hb), (proj2 Hc), (decimal_truthy _ Hc).
Qed.

Lemma not_dot_cases {A} (c : ascii) (x y : A) :
  Ascii.eqb c "."%char = false ->
  match c with
  | "."%char => x
  | _ => y
  end = y.
Proof.
  intros H. destruct c as [[] [] [] [] [] [] [] []];
    try reflexivity; discriminate H.
Qed.

(** The scan, step by step: the first number and the dot, the second
    number, and the third when a dot and a digit follow. *)
Lemma version_pattern_scan_unfold (s : string) :
  version_pattern_scan s =
  let (d1, r1) := PyStr.span_digits s in
  if PyStr.truthy d1 then
    match r1 with
    | EmptyString => None
    | String dot r1' =>
        if Ascii.eqb dot "."%char then
          let (d2, r2) := PyStr.span_digits r1' in
          if PyStr.truthy d2 then
            match r2 with
            | EmptyString => Some (d1 ++ "." ++ d2)
            | String dot2 r2' =>
                if Ascii.eqb dot2 "."%char then
                  let (d3, _) := PyStr.span_digits r2' in
                  if PyStr.truthy d3
                  then Some (d1 ++ "." ++ d2 ++ "." ++ d3)
                  else Some (d1 ++ "." ++ d2)
                else Some (d1 ++ "." ++ d2)
            end
          else None
        else None
    end
  else None.
Proof.
  unfold version_pattern_scan.
  destruct (PyStr.span_digits s) as [d1 r1].
  destruct d1 as [|c1 d1]; [reflexivity|].
  destruct r1 as [|dot r1]; [reflexivity|]. cbn [PyStr.truthy].
  destruct (Ascii.eqb dot "."%char) eqn:Edot;
    [|now rewrite (not_dot_cases _ _ _ Edot)].
  apply Ascii.eqb_eq in Edot. subst dot.
  destruct (PyStr.span_digits r1) as [d2 r2].
  destruct d2 as [|c2 d2]; [reflexivity|].
  destruct r2 as [|dot2 r2]; [reflexivity|]. cbn [PyStr.truthy].
  destruct (Ascii.eqb dot2 "."%char) eqn:Edot2;
    [|now rewrite (not_dot_cases _ _ _ Edot2)].
  apply Ascii.eqb_eq in Edot2. subst dot2.
  destruct (PyStr.span_digits r2) as [d3 r3].
  now destruct d3.
Qed.

Lemma truthy_decimal (s d r : string) :
  PyStr.span_digits s = (d, r) -> PyStr.truthy d = true -> decimal d.
Proof.
  intros E T. split; [now destruct d|].
  exact (span_digits_all_digits _ _ _ E).
Qed.

(** What the scan matches is a leading version of the text, and the match
    is the beginning of the text and parses to the numbers of that
    version. *)
Lemma version_pattern_scan_sound (s raw : string) :
  version_pattern_scan s = Some raw ->
  (exists rest, s = raw ++ rest) /\
  exists ns,
    leading_version s ns /\
    PkgVersion.parse raw = Ok (PkgVersion.mkVersion ns) /\
    (length ns = 2 \/ length ns = 3)%nat.
Proof.
  rewrite version_pattern_scan_unfold.
  destruct (PyStr.span_digits s) as [d1 r1] eqn:E1.
  destruct (PyStr.truthy d1) eqn:T1; [|discriminate].
  destruct r1 as [|dot r1]; [discriminate|].
  destruct (Ascii.eqb dot "."%char) eqn:Edot; [|discriminate].
  apply Ascii.eqb_eq in Edot. subst dot.
  destruct (PyStr.span_digits r1) as [d2 r2] eqn:E2.
  destruct (PyStr.truthy d2) eqn:T2; [|discriminate].
  pose proof (truthy_decimal _ _ _ E1 T1) as D1.
  pose proof (truthy_decimal _ _ _ E2 T2) as D2.
  pose proof (span_digits_ends _ _ _ E2) as N2.
  pose proof (span_digits_append _ _ _ E1) as A1.
  pose proof (span_digits_append _ _ _ E2) as A2.
  assert (Hs : s = d1 ++ "." ++ d2 ++ r2).
  { rewrite A1, A2. reflexivity. }
  assert (Two : ends_version r2 ->
                (exists rest, s = (d1 ++ "." ++ d2) ++ rest) /\
                exists ns,
                  leading_version s ns /\
                  PkgVersion.parse (d1 ++ "." ++ d2)
                  = Ok (PkgVersion.mkVersion ns) /\
                  (length ns = 2 \/ length ns = 3)%nat).
  { intros V2. split.
    - exists r2. rewrite Hs, string_app_assoc. reflexivity.
    - eexists. split; [|split].
      + rewrite Hs. now apply leading_two.
      + now apply parse_two_release.
      + now left. }
  destruct r2 as [|dot2 r2]; [intros [= <-]; now apply Two|].
  destruct (Ascii.eqb dot2 "."%char) eqn:Edot2.
  2:{ intros [= <-]. apply Two. destruct r2; [exact I|].
      intros ->. discriminate Edot2. }
  apply Ascii.eqb_eq in Edot2. subst dot2.
  destruct (PyStr.span_digits r2) as [d3 r3] eqn:E3.
  destruct (PyStr.truthy d3) eqn:T3.
  - pose proof (truthy_decimal _ _ _ E3 T3) as D3.
    pose proof (span_digits_ends _ _ _ E3) as N3.
    pose proof (span_digits_append _ _ _ E3) as A3.
    assert (Hs3 : s = d1 ++ "." ++ d2 ++ "." ++ d3 ++ r3).
    { rewrite Hs, A3. reflexivity. }
    intros [= <-]. split.
    + exists r3. rewrite Hs3.
      rewrite string_app_assoc. simpl. do 2 f_equal.
      rewrite string_app_assoc. simpl. do 2 f_equal.
    + eexists. split; [|split].
      * rewrite Hs3. now apply leading_three.
      * now apply parse_three_release.
      * now right.
  - intros [= <-]. apply Two.
    destruct d3; [|discriminate T3].
    apply span_digits_append in E3 as A3. simpl in A3. subst r3.
    apply span_digits_ends in E3.
    destruct r2 as [|c r2]; [exact I|]. intros _. exact E3.
Qed.







Lemma version_pattern_match_inv (s : string) (m : option string) :
  version_pattern_match s = Ok m ->
  version_pattern_match s = Ok (version_pattern_scan s)
  /\ m = version_pattern_scan s.
Proof.
  unfold version_pattern_match.
  destruct (version_pattern_decided s); [|discriminate].
  intros [= <-]. now split.
Qed.

(** What the pattern matches is a version: two or three numbers. *)
Lemma version_pattern_match_parses (s raw : string) :
  version_pattern_match s = Ok (Some raw) ->
  exists v, PkgVersion.parse raw = Ok v.
Proof.
  intros H. apply version_pattern_match_inv in H. destruct H as [_ H].
  symmetry in H.
  destruct (version_pattern_scan_sound _ _ H) as [_ [ns [_ [Hp _]]]].
  eexists. exact Hp.
Qed.











Example get_closest_match_legacy_sample :
  get_closest_match_legacy world_legacy "14.4" "23E214" no_cache
  = Ok ((Some (generate_kdk_link "14.4" "23E5180j"), "14.4", "23E5180j"),
        mkState None [GetAppleDB]).
Proof. reflexivity. Qed.


(** ** What the handler transfers *)

Create HintDb quiet.

Lemma quiet_ret {A} (a : A) : quiet (ret a).
Proof. intros st a' st' [= _ <-]. reflexivity. Qed.

Lemma quiet_raise {A} (e : exn) : quiet (raise (A := A) e).
Proof. intros st a st' H. discriminate H. Qed.

Lemma quiet_lift {A} (r : result A) : quiet (lift r).
Proof.
  intros st a st'. unfold lift. destruct r; [|discriminate].
  intros [= _ <-]. reflexivity.
Qed.

Lemma quiet_bind {A B} (m : M A) (k : A -> M B) :
  quiet m -> (forall a, quiet (k a)) -> quiet (bind m k).
Proof.
  intros Hm Hk st b st'. unfold bind.
  destruct (m st) as [[a st1]|] eqn:E; [|discriminate].
  intros H. rewrite (Hk a _ _ _ H). exact (Hm _ _ _ E).
Qed.

Lemma quiet_perform {A} (ev : event) (answer : list event -> A) :
  no_transfer ev -> quiet (perform ev answer).
Proof.
  intros Hev st a st'. unfold perform. intros [= _ <-]. simpl.
  destruct ev; simpl in *; try reflexivity; contradiction.
Qed.

Lemma quiet_elevated_rm (file : kdk_folder) : quiet (elevated_rm file).
Proof. intros st a st'. unfold elevated_rm. intros [= _ <-]. reflexivity. Qed.

#[local] Hint Resolve quiet_ret quiet_raise quiet_lift quiet_perform
  quiet_elevated_rm : quiet.
#[local] Hint Extern 1 (no_transfer _) => exact I : quiet.

(** One step through a computation built from the quiet primitives. *)
Ltac quiet_step :=
  first
    [ solve [auto with quiet]
    | apply quiet_bind; [|intros ?]
    | match goal with
      | |- quiet (if ?b then _ else _) => destruct b
      | |- quiet (match ?x with _ => _ end) => destruct x
      end ].

Lemma quiet_is_kdk_installed (build : string) : quiet (is_kdk_installed build).
Proof.
  assert (H : forall files, quiet (is_kdk_installed_loop build files)).
  { induction files as [|file rest IH]; simpl; [apply quiet_ret|].
    destruct (is_dir file && PyStr.endswith (name file) (build ++ ".kdk"));
      [|exact IH].
    repeat quiet_step. }
  intros st a st'. unfold is_kdk_installed.
  destruct (kdks st) as [files|]; [apply H | apply quiet_ret].
Qed.

Lemma quiet_remove_unused_kdks (constants : Constants)
  (exclude_builds : list string) :
  quiet (remove_unused_kdks constants exclude_builds).
Proof.
  assert (H : forall folders,
             quiet (remove_unused_loop exclude_builds folders)).
  { induction folders as [|f rest IH]; simpl; [apply quiet_ret|].
    apply quiet_bind; [|intros _; exact IH]. repeat quiet_step. }
  intros st a st'. unfold remove_unused_kdks.
  destruct (negb (should_nuke_kdks constants)); [apply quiet_ret|].
  destruct (kdks st); [|apply quiet_ret].
  destruct exclude_builds; [apply quiet_ret | apply H].
Qed.

Lemma quiet_verify_apple_developer_portal (w : World) (link : string) :
  quiet (verify_apple_developer_portal w link).
Proof. unfold verify_apple_developer_portal. repeat quiet_step. Qed.

Lemma quiet_kdk_backup_site (w : World) (build : string) :
  quiet (kdk_backup_site w build).
Proof. unfold kdk_backup_site. repeat quiet_step. Qed.

Lemma quiet_get_available_kdks (w : World) : quiet (get_available_kdks w).
Proof. unfold get_available_kdks. repeat quiet_step. Qed.

Lemma quiet_get_closest_match_legacy (w : World)
  (host_version host_build : string) :
  quiet (get_closest_match_legacy w host_version host_build).
Proof. unfold get_closest_match_legacy. repeat quiet_step. Qed.

Lemma quiet_resolve_candidates (w : World) (version build : string) :
  quiet (resolve_candidates w version build).
Proof.
  unfold resolve_candidates.
  apply quiet_bind; [apply quiet_get_available_kdks|intros kdk_list].
  apply quiet_bind; [apply quiet_lift|intros parsed].
  destruct kdk_list as [[|k l]|]; try apply quiet_lift;
    (apply quiet_bind; [apply quiet_get_closest_match_legacy|]);
    intros [[a b] c]; apply quiet_ret.
Qed.

Lemma transfer_log (w : World) (link : string) (st : state) :
  exists ok st',
    transfer w link st = Ok (ok, st') /\
    kdks st' = kdks st /\
    transferred (log st') = link :: transferred (log st).
Proof.
  unfold transfer, perform.
  destruct (PyStr.contains "github" link); eexists; eexists;
    (split; [reflexivity|]); split; reflexivity.
Qed.

(** A successful run of lines 211-228 transferred exactly [download_link],
    and reports the detected build. *)
Lemma download_and_verify_success (w : World) (constants : Constants)
  (detected_build closest_build download_link : string) (st st' : state)
  (msg build : string) :
  download_and_verify w constants detected_build closest_build download_link st
  = Ok ((true, msg, build), st') ->
  msg = "" /\ build = detected_build /\
  transferred (log st') = download_link :: transferred (log st).
Proof.
  unfold download_and_verify, bind.
  destruct (transfer_log w download_link st) as [ok [st1 [Ht [_ Hl]]]].
  rewrite Ht. destruct ok; [|unfold ret; intros [= <- <-]; discriminate].
  unfold perform at 1.
  destruct (negb (hdiutil_verify w (log st1) =? 0)%Z);
    [unfold ret; intros H; discriminate H|].
  destruct (remove_unused_kdks constants [detected_build; closest_build]
              {| kdks := kdks st1; log := HdiutilVerify :: log st1 |})
    as [[u st2]|] eqn:Hr; [|discriminate].
  unfold ret. intros [= <- <- <-].
  apply quiet_remove_unused_kdks in Hr. rewrite Hr. simpl.
  repeat split. exact Hl.
Qed.

(** A successful run of the closest-match branch (lines 165-198) either
    found the closest build installed and reports that build, or went on to
    a transfer and reports the detected build. *)
Lemma closest_match_branch_success (w : World) (constants : Constants)
  (detected_build : string) (c : candidates) (st st' : state)
  (msg build : string) :
  closest_match_branch w constants detected_build c st
  = Ok ((true, msg, build), st') ->
  msg = "" /\
  ((build = closest_build c /\
    transferred (log st') = transferred (log st) /\
    exists st1, is_kdk_installed (closest_build c) st = Ok (true, st1))
   \/ (build = detected_build /\
       exists link, transferred (log st') = link :: transferred (log st))).
Proof.
  unfold closest_match_branch, bind.
  destruct (is_kdk_installed (closest_build c) st) as [[installed st1]|] eqn:Hi;
    [|discriminate].
  pose proof (quiet_is_kdk_installed _ _ _ _ Hi) as Hq1.
  destruct installed.
  - destruct (remove_unused_kdks constants [detected_build; closest_build c] st1)
      as [[u st2]|] eqn:Hr; [|discriminate].
    unfold ret. intros [= <- <- <-]. split; [reflexivity|]. left.
    apply quiet_remove_unused_kdks in Hr.
    repeat split; [congruence | now exists st1].
  - destruct (closest_match_download_link c) as [closest_link|];
      [|unfold ret; intros H; discriminate H].
    destruct (verify_apple_developer_portal w closest_link st1)
      as [[result st2]|] eqn:Hv; [|discriminate].
    pose proof (quiet_verify_apple_developer_portal _ _ _ _ _ Hv) as Hq2.
    destruct (result =? 0)%Z.
    { intros H. apply download_and_verify_success in H.
      destruct H as [-> [-> Hl]]. split; [reflexivity|]. right.
      split; [reflexivity|]. exists closest_link. congruence. }
    destruct (result =? 1)%Z; [unfold ret; intros H; discriminate H|].
    destruct (result =? 2)%Z; [|unfold ret; intros H; discriminate H].
    destruct (kdk_backup_site w (closest_build c) st2)
      as [[download_link st3]|] eqn:Hb; [|discriminate].
    pose proof (quiet_kdk_backup_site _ _ _ _ _ Hb) as Hq3.
    destruct download_link as [download_link|];
      [|unfold ret; intros H; discriminate H].
    intros H. apply download_and_verify_success in H.
    destruct H as [-> [-> Hl]]. split; [reflexivity|]. right.
    split; [reflexivity|]. exists download_link. congruence.
Qed.

(** C2, as the code has it: a successful resolution reports the requested
    build when the requested kit was found installed and when a kit was
    transferred and verified, be it the exact match, the closest match or a
    mirror copy; when the closest candidate's build is found installed, it
    reports that closest build.  The message is empty in all three. *)
Theorem download_kdk_success_build (w : World) (constants : Constants)
  (version build : string) (st st' : state) (msg resolved : string) :
  download_kdk w constants version build st = Ok ((true, msg, resolved), st') ->
  msg = "" /\
  ((resolved = build /\
    transferred (log st') = transferred (log st) /\
    exists st1, is_kdk_installed build st = Ok (true, st1))
   \/ (resolved = build /\
       exists link, transferred (log st') = link :: transferred (log st))
   \/ (exists st1 c st2 st3 st4,
          is_kdk_installed build st = Ok (false, st1) /\
          resolve_candidates w version build st1 = Ok (c, st2) /\
          is_kdk_installed (closest_build c) st3 = Ok (true, st4) /\
          resolved = closest_build c /\
          transferred (log st') = transferred (log st))).
Proof.
  unfold download_kdk, bind.
  destruct (is_kdk_installed build st) as [[installed st1]|] eqn:Hi;
    [|discriminate].
  pose proof (quiet_is_kdk_installed _ _ _ _ Hi) as Hq1.
  destruct installed.
  { destruct (remove_unused_kdks constants [build] st1)
      as [[u st2]|] eqn:Hr; [|discriminate].
    unfold ret. intros [= <- <- <-]. split; [reflexivity|]. left.
    apply quiet_remove_unused_kdks in Hr.
    repeat split; [congruence | now exists st1]. }
  destruct (resolve_candidates w version build st1) as [[c st2]|] eqn:Hc;
    [|discriminate].
  pose proof (quiet_resolve_candidates _ _ _ _ _ _ Hc) as Hq2.
  set (probe := if link_truthy (download_link c) then
                  match download_link c with
                  | Some link => verify_apple_developer_portal w link
                  | None => ret 1%Z
                  end
                else ret 1%Z).
  assert (Hprobe : quiet probe).
  { subst probe. destruct (link_truthy (download_link c));
      [destruct (download_link c)|];
      auto using quiet_verify_apple_developer_portal, quiet_ret. }
  destruct (probe st2) as [[result st3]|] eqn:Hp; [|discriminate].
  apply Hprobe in Hp.
  assert (Proceed : forall link st4,
             transferred (log st4) = transferred (log st) ->
             match link with
             | Some download_link =>
                 download_and_verify w constants build (closest_build c)
                   download_link
             | None => raise TypeError
             end st4 = Ok ((true, msg, resolved), st') ->
             msg = "" /\ resolved = build /\
             exists l, transferred (log st') = l :: transferred (log st)).
  { intros [l|] st4 Hq H; [|discriminate H].
    apply download_and_verify_success in H. destruct H as [-> [-> Hl]].
    repeat split. exists l. congruence. }
  destruct (result =? 0)%Z.
  { intros H. apply Proceed in H; [|congruence].
    destruct H as [-> [-> Hl]]. split; [reflexivity|]. right. left.
    now split. }
  destruct (result =? 1)%Z.
  { intros H. apply closest_match_branch_success in H.
    destruct H as [-> [[-> [Hl [st4 Hi4]]] | [-> [l Hl]]]];
      (split; [reflexivity|]); right.
    - right. exists st1, c, st2, st3, st4. repeat split; try assumption.
      congruence.
    - left. split; [reflexivity|]. exists l. congruence. }
  destruct (result =? 2)%Z.
  { destruct (kdk_backup_site w build st3) as [[download_link st4]|] eqn:Hb;
      [|discriminate].
    apply quiet_kdk_backup_site in Hb.
    destruct download_link as [download_link|];
      [|unfold ret; intros H; discriminate H].
    intros H. apply (Proceed (Some download_link)) in H; [|congruence].
    destruct H as [-> [-> Hl]]. split; [reflexivity|]. right. left.
    now split. }
  destruct (result =? 3)%Z; [unfold ret; intros H; discriminate H|].
  intros H. apply Proceed in H; [|congruence].
  destruct H as [-> [-> Hl]]. split; [reflexivity|]. right. left. now split.
Qed.

Lemma download_kdk_success_build_witness :
  let url := k_url kdk_23E214 in
  let st' := mkState None
               [HdiutilVerify; DownloadPortal url; GetToken url; CheckNetwork;
                GetKdkApi] in
  "" = "" /\
  (("23E214" = "23E214" /\
    transferred (log st') = transferred (log no_cache) /\
    exists st1, is_kdk_installed "23E214" no_cache = Ok (true, st1))
   \/ ("23E214" = "23E214" /\
       exists link, transferred (log st') = link :: transferred (log no_cache))
   \/ (exists st1 c st2 st3 st4,
          is_kdk_installed "23E214" no_cache = Ok (false, st1) /\
          resolve_candidates world_exact "14.4" "23E214" st1 = Ok (c, st2) /\
          is_kdk_installed (closest_build c) st3 = Ok (true, st4) /\
          "23E214" = closest_build c /\
          transferred (log st') = transferred (log no_cache))).
Proof.
  exact (download_kdk_success_build world_exact sample_constants "14.4"
           "23E214" no_cache _ "" "23E214" eq_refl).
Defined.

(** The closest build 23D56 is installed and the catalogue has no entry for
    the requested build 23E214: the resolution succeeds and reports 23D56. *)
Lemma download_kdk_reports_closest_build :
  download_kdk world_older_only sample_constants "14.4" "23E214" cache_one_kit
  = Ok ((true, "", "23D56"), mkState (kdks cache_one_kit) [GetKdkApi])
  /\ "23D56" <> "23E214".
Proof. split; [reflexivity | discriminate]. Defined.

(** ** Exact-match precedence *)

Lemma remove_unused_kdks_total (constants : Constants)
  (exclude_builds : list string) (st : state) :
  exists st', remove_unused_kdks constants exclude_builds st = Ok (tt, st').
Proof.
  destruct (should_nuke_kdks constants) eqn:Hn;
    [|exists st; apply remove_unused_kdks_guard; auto].
  destruct (kdks st) as [folders|] eqn:Hk;
    [|exists st; apply remove_unused_kdks_guard; auto].
  destruct exclude_builds as [|b bs] eqn:He;
    [exists st; apply remove_unused_kdks_guard; auto|].
  eexists. apply (remove_unused_kdks_active _ _ _ folders);
    [assumption | assumption | discriminate].
Qed.











(** ** The empty build *)

Lemma intact_no_missing_kext (f : kdk_folder) :
  intact f = true ->
  find (fun kext => negb (kext_exists f kext)) kexts_to_check = None.
Proof.
  unfold intact. generalize kexts_to_check.
  induction l as [|k l IH]; simpl; [reflexivity|].
  intros H. apply andb_prop in H. destruct H as [Hk Hl].
  rewrite Hk. simpl. now apply IH.
Qed.

(** The first directory of the listing with the suffix decides; when it is
    intact the answer is True and nothing is removed. *)
Lemma is_kdk_installed_first_intact (build : string) (st : state)
  (f : kdk_folder) :
  find (fun g => is_dir g && PyStr.endswith (name g) (build ++ ".kdk"))
    (listing st) = Some f ->
  intact f = true ->
  is_kdk_installed build st = Ok (true, st).
Proof.
  unfold is_kdk_installed, listing.
  destruct (kdks st) as [files|]; [|discriminate].
  induction files as [|g files IH]; cbn [find is_kdk_installed_loop];
    [discriminate|].
  destruct (is_dir g && PyStr.endswith (name g) (build ++ ".kdk")).
  - intros [= ->] Hf. now rewrite (intact_no_missing_kext f Hf).
  - exact IH.
Qed.


(** C10, as the code has it: with the empty build the suffix test accepts
    every kit directory, and the first kit directory of the listing decides:
    when it is intact, [is_kdk_installed] answers True.  Consequently, when
    the primary link is missing or reported Unavailable and the closest
    build is the empty string, [download_kdk] returns success with the empty
    string as build whenever the first kit directory is intact. *)
Theorem download_kdk_empty_closest_build (w : World) (constants : Constants)
  (version build : string) (st st1 st2 st3 : state) (c : candidates)
  (f : kdk_folder) :
  is_kdk_installed build st = Ok (false, st1) ->
  resolve_candidates w version build st1 = Ok (c, st2) ->
  closest_build c = "" ->
  (link_truthy (download_link c) = false /\ st3 = st2) \/
  (exists link,
      download_link c = Some link /\ link <> "" /\
      verify_apple_developer_portal w link st2 = Ok (Unavailable, st3)) ->
  find is_kit (listing st3) = Some f ->
  intact f = true ->
  is_kdk_installed "" st3 = Ok (true, st3) /\
  exists st',
    download_kdk w constants version build st = Ok ((true, "", ""), st').
Proof.
  intros Hi Hc Hcb Hprobe Hfirst Hintact.
  assert (Hinst : is_kdk_installed "" st3 = Ok (true, st3)).
  { exact (is_kdk_installed_first_intact "" st3 f Hfirst Hintact). }
  split; [exact Hinst|].
  destruct (remove_unused_kdks_total constants [build; ""] st3) as [st' Hr].
  exists st'.
  assert (Hbranch : closest_match_branch w constants build c st3
                    = Ok ((true, "", ""), st')).
  { unfold closest_match_branch, bind. rewrite Hcb, Hinst, Hr. reflexivity. }
  unfold download_kdk, bind. rewrite Hi, Hc.
  destruct Hprobe as [[Hl ->] | [link [Hl [Hne Hv]]]].
  - rewrite Hl. unfold ret at 1. simpl. exact Hbranch.
  - rewrite Hl. simpl.
    assert (Ht : PyStr.truthy link = true) by now destruct link.
    rewrite Ht, Hv. simpl. exact Hbranch.
Qed.

Lemma download_kdk_empty_closest_build_witness :
  is_kdk_installed "" (mkState (kdks cache_sound_first) [GetKdkApi])
  = Ok (true, mkState (kdks cache_sound_first) [GetKdkApi]) /\
  exists st',
    download_kdk world_nothing_close sample_constants "14.4" "23E214"
      cache_sound_first = Ok ((true, "", ""), st').
Proof.
  apply (download_kdk_empty_closest_build world_nothing_close sample_constants
           "14.4" "23E214" cache_sound_first cache_sound_first
           (mkState (kdks cache_sound_first) [GetKdkApi])
           (mkState (kdks cache_sound_first) [GetKdkApi])
           (mkCandidates None None "" "")
           (kit "KDK_14.3_23D56.kdk")).
  - reflexivity.
  - reflexivity.
  - reflexivity.
  - left. split; reflexivity.
  - reflexivity.
  - reflexivity.
Defined.

(** An intact kit is installed, but a damaged one is listed before it: the
    empty build is answered False (the damaged kit is removed), and the
    handler fails with the no-closest-match message. *)
Lemma download_kdk_damaged_kit_first :
  let sound := kit "KDK_14.3_23D56.kdk" in
  In sound (listing cache_damaged_first) /\
  is_kit sound = true /\ intact sound = true /\
  is_kdk_installed "" cache_damaged_first
  = Ok (false, mkState (Some [sound]) [Remove "KDK_13.0_22A380.kdk"]) /\
  download_kdk world_nothing_close sample_constants "14.4" "23E214"
    cache_damaged_first
  = Ok ((false, msg_no_closest, ""),
        mkState (Some [sound]) [Remove "KDK_13.0_22A380.kdk"; GetKdkApi]).
Proof.
  split; [simpl; auto|]. repeat split; reflexivity.
Defined.

(** ** Faults that are converted, and faults that are not *)

Lemma returns_ret {A} (P : A -> Prop) (a : A) : P a -> returns P (ret a).
Proof. intros H st. now exists a, st. Qed.

Lemma returns_bind {A B} (P : A -> Prop) (Q : B -> Prop) (m : M A)
  (k : A -> M B) :
  returns P m -> (forall a, P a -> returns Q (k a)) -> returns Q (bind m k).
Proof.
  intros Hm Hk st. unfold bind.
  destruct (Hm st) as [a [st1 [E Ha]]]. rewrite E. exact (Hk a Ha st1).
Qed.

Lemma returns_weaken {A} (P Q : A -> Prop) (m : M A) :
  returns P m -> (forall a, P a -> Q a) -> returns Q m.
Proof.
  intros Hm H st. destruct (Hm st) as [a [st1 [E Ha]]].
  exists a, st1. split; [exact E | now apply H].
Qed.

Lemma returns_perform {A} (P : A -> Prop) (ev : event)
  (answer : list event -> A) :
  (forall h, P (answer h)) -> returns P (perform ev answer).
Proof. intros H st. unfold perform. eexists; eexists. split; [reflexivity|apply H]. Qed.

Lemma returns_lift {A} (P : A -> Prop) (r : result A) (a : A) :
  r = Ok a -> P a -> returns P (lift r).
Proof. intros -> H st. now exists a, st. Qed.

Lemma returns_elevated_rm (file : kdk_folder) :
  returns (fun _ => True) (elevated_rm file).
Proof. intros st. unfold elevated_rm. eexists; eexists. split; [reflexivity|exact I]. Qed.

Lemma returns_is_kdk_installed (build : string) :
  returns (fun _ => True) (is_kdk_installed build).
Proof.
  assert (H : forall files,
             returns (fun _ => True) (is_kdk_installed_loop build files)).
  { induction files as [|file rest IH]; cbn [is_kdk_installed_loop];
      [now apply returns_ret|].
    destruct (is_dir file && PyStr.endswith (name file) (build ++ ".kdk"));
      [|exact IH].
    destruct (find _ kexts_to_check); [|now apply returns_ret].
    eapply returns_bind; [apply returns_elevated_rm|].
    intros _ _. now apply returns_ret. }
  intros st. unfold is_kdk_installed.
  destruct (kdks st) as [files|]; [apply H | now apply returns_ret].
Qed.

Lemma returns_remove_unused_kdks (constants : Constants)
  (exclude_builds : list string) :
  returns (fun _ => True) (remove_unused_kdks constants exclude_builds).
Proof.
  intros st.
  destruct (remove_unused_kdks_total constants exclude_builds st) as [st' H].
  now exists tt, st'.
Qed.

(** The catalogue, AppleDB and the token request all time out: each of
    the three is converted, and the kit comes from the mirror. *)
Example download_kdk_timeouts_sample :
  download_kdk world_timeouts sample_constants "14.4" "23E214" no_cache
  = Ok ((true, "", "23E214"),
        mkState None
          [HdiutilVerify;
           DownloadFile
             "https://github.com/dortania/KdkSupportPkg/releases/download/23E214/Kernel_Debug_Kit_14.4_build_23E214.dmg";
           GetMirror;
           GetToken (generate_kdk_link "14.4" "23E214");
           CheckNetwork; GetAppleDB; GetKdkApi]).
Proof. reflexivity. Qed.

(** A catalogue record with a date that does not parse: its ValueError
    leaves [download_kdk]. *)
Example download_kdk_undated_sample :
  download_kdk world_undated sample_constants "14.4" "23E214" no_cache
  = Raise (ValueError "unknown").
Proof. reflexivity. Qed.

(** C3, at the failing input: the catalogue lists the requested build, the
    token request times out, so that the probe answers PortalDown, and the
    mirror cannot be reached.  The ConnectionError of the mirror lookup is
    not converted into a failure value: it leaves [download_kdk] as an
    exception, where the claim asks for a (False, message, empty build)
    result. *)
Theorem download_kdk_mirror_fault_escapes :
  download_kdk world_mirror_unreachable sample_constants "14.4" "23E214"
    no_cache
  = Raise (RequestException ConnectionError).
Proof. reflexivity. Qed.

(** * Further properties *)

(** ** is_kdk_installed *)

Lemma missing_kext_none_iff (f : kdk_folder) (kexts : list string) :
  find (fun kext => negb (kext_exists f kext)) kexts = None <->
  forallb (kext_exists f) kexts = true.
Proof.
  induction kexts as [|k l IH]; simpl; [tauto|].
  destruct (kext_exists f k); simpl; [exact IH|].
  split; discriminate.
Qed.

(** The loop reads the listing it is given and leaves the state alone until
    it meets the first directory with the suffix. *)
Lemma is_kdk_installed_loop_find (build : string) (files : list kdk_folder)
  (st : state) :
  is_kdk_installed_loop build files st =
  match find (has_suffix build) files with
  | None => Ok (false, st)
  | Some f => if intact f then Ok (true, st) else Ok (false, without f st)
  end.
Proof.
  induction files as [|g files IH]; cbn [find is_kdk_installed_loop];
    [reflexivity|].
  unfold has_suffix at 1.
  destruct (is_dir g && PyStr.endswith (name g) (build ++ ".kdk"));
    [|exact IH].
  unfold intact.
  destruct (find (fun kext => negb (kext_exists g kext)) kexts_to_check)
    as [k|] eqn:E.
  - destruct (forallb (kext_exists g) kexts_to_check) eqn:F; [|reflexivity].
    apply missing_kext_none_iff in F. congruence.
  - apply missing_kext_none_iff in E. now rewrite E.
Qed.

(** X1: the first directory of the listing whose name ends with the build
    and the kit suffix decides.  With its four kernel extensions in place
    the answer is True and nothing changes; otherwise that directory is
    removed and the answer is False, whatever follows it in the listing.
    Without such a directory, or without the cache root, the answer is False
    and nothing changes. *)
Theorem is_kdk_installed_first_decides (build : string) (st : state) :
  is_kdk_installed build st =
  match find (has_suffix build) (listing st) with
  | None => Ok (false, st)
  | Some f => if intact f then Ok (true, st) else Ok (false, without f st)
  end.
Proof.
  unfold is_kdk_installed, listing.
  destruct (kdks st) as [files|]; [|reflexivity].
  apply is_kdk_installed_loop_find.
Qed.

(** X2: an answer True leaves the cache and the log as they were, and
    there is a directory in the listing whose name ends with the build and
    the kit suffix and below which the four kernel extensions exist. *)
Theorem is_kdk_installed_true_sound (build : string) (st st' : state) :
  is_kdk_installed build st = Ok (true, st') ->
  st' = st /\
  exists f,
    In f (listing st) /\ is_dir f = true /\
    PyStr.endswith (name f) (build ++ ".kdk") = true /\
    forall kext, In kext kexts_to_check ->
      existsb (String.eqb ("System/Library/Extensions/" ++ kext))
        (contents f) = true.
Proof.
  unfold is_kdk_installed, listing.
  destruct (kdks st) as [files|]; [|discriminate].
  rewrite is_kdk_installed_loop_find.
  destruct (find (has_suffix build) files) as [f|] eqn:E; [|discriminate].
  destruct (intact f) eqn:I; [|discriminate].
  intros [= <-]. split; [reflexivity|].
  apply find_some in E. destruct E as [Hin Hs].
  apply andb_prop in Hs. destruct Hs as [Hd Hs].
  exists f. repeat split; try assumption.
  intros kext Hk. unfold intact in I.
  rewrite forallb_forall in I. exact (I kext Hk).
Qed.

Lemma is_kdk_installed_true_sound_witness :
  cache_damaged_first = cache_damaged_first /\
  exists f,
    In f (listing cache_damaged_first) /\ is_dir f = true /\
    PyStr.endswith (name f) ("23D56" ++ ".kdk") = true /\
    forall kext, In kext kexts_to_check ->
      existsb (String.eqb ("System/Library/Extensions/" ++ kext))
        (contents f) = true.
Proof.
  apply (is_kdk_installed_true_sound "23D56" cache_damaged_first
           cache_damaged_first).
  reflexivity.
Defined.

(** ** remove_unused_kdks *)

Lemma name_decides (l : list kdk_folder) (f g : kdk_folder) :
  NoDup (map name l) -> In f l -> In g l -> name f = name g -> f = g.
Proof.
  induction l as [|a l IH]; simpl; [tauto|].
  intros Hnd [-> | Hf] [-> | Hg] Hn; inversion Hnd; subst; auto.
  - exfalso. apply H1. rewrite Hn. now apply in_map.
  - exfalso. apply H1. rewrite <- Hn. now apply in_map.
Qed.

Lemma doomed_name_iff (exclude_builds : list string)
  (folders : list kdk_folder) (f : kdk_folder) :
  NoDup (map name folders) -> In f folders ->
  existsb (String.eqb (name f)) (doomed_names exclude_builds folders)
  = doomed exclude_builds f.
Proof.
  intros Hnd Hin.
  destruct (doomed exclude_builds f) eqn:Hd;
    [now apply existsb_name_self|].
  destruct (existsb _ _) eqn:E; [|reflexivity].
  apply existsb_exists in E. destruct E as [n [Hn Heq]].
  apply String.eqb_eq in Heq. subst n.
  unfold doomed_names in Hn. apply in_map_iff in Hn.
  destruct Hn as [g [Hg Hgin]]. apply filter_In in Hgin.
  destruct Hgin as [Hgin Hgd].
  rewrite (name_decides folders g f Hnd Hgin Hin Hg) in Hgd. congruence.
Qed.

(** X3: when pruning is enabled, the exclusion list is not empty and the
    entries of the cache root have distinct names, pruning removes exactly
    the directories whose name ends in .kdk and that no build of the list,
    other than the empty string, protects; the other entries stay, in their
    order, and the removals are issued in listing order. *)
Theorem remove_unused_kdks_exact (constants : Constants)
  (exclude_builds : list string) (st : state) (folders : list kdk_folder) :
  should_nuke_kdks constants = true ->
  kdks st = Some folders ->
  exclude_builds <> [] ->
  NoDup (map name folders) ->
  remove_unused_kdks constants exclude_builds st =
  Ok (tt,
      mkState
        (Some (filter
                 (fun f =>
                    negb (is_dir f && PyStr.endswith (name f) ".kdk"
                          && negb (kept exclude_builds (name f))))
                 folders))
        (rev (map Remove
                (map name
                   (filter
                      (fun f =>
                         is_dir f && PyStr.endswith (name f) ".kdk"
                         && negb (kept exclude_builds (name f)))
                      folders)))
         ++ log st)).
Proof.
  intros Hn Hk He Hnd.
  rewrite (remove_unused_kdks_active _ _ _ folders Hn Hk He).
  f_equal. f_equal. f_equal. f_equal.
  apply filter_ext_in. intros f Hf.
  now rewrite (doomed_name_iff _ _ _ Hnd Hf).
Qed.

Lemma remove_unused_kdks_exact_witness :
  remove_unused_kdks sample_constants ["23E214"] cache_two_kits =
  Ok (tt,
      mkState
        (Some (filter
                 (fun f =>
                    negb (is_dir f && PyStr.endswith (name f) ".kdk"
                          && negb (kept ["23E214"] (name f))))
                 [kit "KDK_14.4_23E214.kdk"; kit "KDK_14.3_23D56.kdk"]))
        (rev (map Remove
                (map name
                   (filter
                      (fun f =>
                         is_dir f && PyStr.endswith (name f) ".kdk"
                         && negb (kept ["23E214"] (name f)))
                      [kit "KDK_14.4_23E214.kdk"; kit "KDK_14.3_23D56.kdk"])))
         ++ log cache_two_kits)).
Proof.
  apply (remove_unused_kdks_exact sample_constants ["23E214"] cache_two_kits
           [kit "KDK_14.4_23E214.kdk"; kit "KDK_14.3_23D56.kdk"]).
  - reflexivity.
  - reflexivity.
  - discriminate.
  - simpl. constructor.
    + simpl. intros [H | []]. discriminate H.
    + constructor; [simpl; tauto | constructor].
Defined.

(** X4: after a pruning that passed its guards, every directory left in
    the cache root whose name ends in .kdk is protected: its name ends with
    b.kdk for a build b of the exclusion list that is not the empty
    string. *)
Theorem remove_unused_kdks_complete (constants : Constants)
  (exclude_builds : list string) (st st' : state) (f : kdk_folder) :
  should_nuke_kdks constants = true ->
  exclude_builds <> [] ->
  remove_unused_kdks constants exclude_builds st = Ok (tt, st') ->
  In f (listing st') ->
  is_dir f = true ->
  PyStr.endswith (name f) ".kdk" = true ->
  exists b, In b exclude_builds /\ b <> "" /\
            PyStr.endswith (name f) (b ++ ".kdk") = true.
Proof.
  intros Hn He Hr Hin Hd Hs.
  destruct (kdks st) as [folders|] eqn:Hk.
  - rewrite (remove_unused_kdks_active _ _ _ folders Hn Hk He) in Hr.
    injection Hr as <-. unfold listing in Hin. simpl in Hin.
    apply filter_In in Hin. destruct Hin as [Hin Hx].
    apply kept_true_iff.
    destruct (kept exclude_builds (name f)) eqn:Hkept; [reflexivity|].
    assert (Hdoom : doomed exclude_builds f = true).
    { unfold doomed, is_kit. now rewrite Hd, Hs, Hkept. }
    rewrite (existsb_name_self _ _ _ Hin Hdoom) in Hx. discriminate.
  - rewrite remove_unused_kdks_guard in Hr by auto.
    injection Hr as <-. unfold listing in Hin. now rewrite Hk in Hin.
Qed.

Lemma remove_unused_kdks_complete_witness :
  exists b, In b ["23E214"] /\ b <> "" /\
            PyStr.endswith (name (kit "KDK_14.4_23E214.kdk")) (b ++ ".kdk")
            = true.
Proof.
  apply (remove_unused_kdks_complete sample_constants ["23E214"]
           cache_two_kits
           (mkState (Some [kit "KDK_14.4_23E214.kdk"])
              [Remove "KDK_14.3_23D56.kdk"])
           (kit "KDK_14.4_23E214.kdk")).
  - reflexivity.
  - discriminate.
  - reflexivity.
  - simpl. left. reflexivity.
  - reflexivity.
  - reflexivity.
Defined.

(** ** kdk_backup_site *)

Lemma find_mirror_some (build : string) (catalog : list release)
  (url : string) :
  find_mirror build catalog = Some url ->
  exists release asset,
    In release catalog /\ tag_name release = build /\
    In asset (assets release) /\
    PyStr.endswith (asset_name asset) ".dmg" = true /\
    browser_download_url asset = url.
Proof.
  induction catalog as [|r rest IH]; simpl; [discriminate|].
  destruct (String.eqb (tag_name r) build) eqn:Et.
  - destruct (find _ (assets r)) as [a|] eqn:Ef.
    + intros [= <-]. apply find_some in Ef. destruct Ef as [Ha Hs].
      apply String.eqb_eq in Et. exists r, a. auto.
    + intros H. destruct (IH H) as [r' [a' [Hr H']]].
      exists r', a'. auto.
  - intros H. destruct (IH H) as [r' [a' [Hr H']]].
    exists r', a'. auto.
Qed.

Lemma find_mirror_none (build : string) (catalog : list release) :
  find_mirror build catalog = None ->
  forall release asset,
    In release catalog -> tag_name release = build ->
    In asset (assets release) ->
    PyStr.endswith (asset_name asset) ".dmg" = false.
Proof.
  induction catalog as [|r rest IH]; simpl; [intros _ ? ? []|].
  destruct (String.eqb (tag_name r) build) eqn:Et.
  - destruct (find _ (assets r)) as [a|] eqn:Ef; [discriminate|].
    intros H release asset [<- | Hin] Ht Ha.
    + exact (find_none _ _ Ef asset Ha).
    + exact (IH H release asset Hin Ht Ha).
  - intros H release asset [<- | Hin] Ht Ha.
    + apply String.eqb_neq in Et. contradiction.
    + exact (IH H release asset Hin Ht Ha).
Qed.

(** X5: when the mirror repository answers, the lookup makes that one
    request and leaves the cache alone.  With a status other than 200 it
    returns None.  With status 200, a link it returns is the download link
    of a .dmg asset of a release tagged with the build, and it returns None
    only when no release tagged with the build has a .dmg asset. *)
Theorem kdk_backup_site_tagged_dmg (w : World) (build : string) (st : state)
  (status_code : Z) (text : string) (json : list release) :
  mirror_repository w (log st) = Response status_code text json ->
  exists r,
    kdk_backup_site w build st
    = Ok (r, mkState (kdks st) (GetMirror :: log st)) /\
    (status_code <> 200%Z -> r = None) /\
    (status_code = 200%Z ->
     match r with
     | Some url =>
         exists release asset,
           In release json /\ tag_name release = build /\
           In asset (assets release) /\
           PyStr.endswith (asset_name asset) ".dmg" = true /\
           browser_download_url asset = url
     | None =>
         forall release asset,
           In release json -> tag_name release = build ->
           In asset (assets release) ->
           PyStr.endswith (asset_name asset) ".dmg" = false
     end).
Proof.
  intros Hm. unfold kdk_backup_site, bind, perform, ret. rewrite Hm.
  destruct (status_code =? 200)%Z eqn:Es; simpl.
  - apply Z.eqb_eq in Es. exists (find_mirror build json).
    split; [reflexivity|]. split; [intros H; contradiction|]. intros _.
    destruct (find_mirror build json) as [url|] eqn:Ef.
    + now apply find_mirror_some.
    + now apply find_mirror_none.
  - apply Z.eqb_neq in Es. exists None.
    split; [reflexivity|]. split; [reflexivity|]. intros H. contradiction.
Qed.

Lemma kdk_backup_site_tagged_dmg_witness :
  exists r,
    kdk_backup_site world_timeouts "23E214" no_cache
    = Ok (r, mkState (kdks no_cache) (GetMirror :: log no_cache)) /\
    (200%Z <> 200%Z -> r = None) /\
    (200%Z = 200%Z ->
     match r with
     | Some url =>
         exists release asset,
           In release
             [mkRelease "23E214"
                [mkAsset "Kernel_Debug_Kit_14.4_build_23E214.dmg"
                   "https://github.com/dortania/KdkSupportPkg/releases/download/23E214/Kernel_Debug_Kit_14.4_build_23E214.dmg"]] /\
           tag_name release = "23E214" /\
           In asset (assets release) /\
           PyStr.endswith (asset_name asset) ".dmg" = true /\
           browser_download_url asset = url
     | None =>
         forall release asset,
           In release
             [mkRelease "23E214"
                [mkAsset "Kernel_Debug_Kit_14.4_build_23E214.dmg"
                   "https://github.com/dortania/KdkSupportPkg/releases/download/23E214/Kernel_Debug_Kit_14.4_build_23E214.dmg"]] ->
           tag_name release = "23E214" ->
           In asset (assets release) ->
           PyStr.endswith (asset_name asset) ".dmg" = false
     end).
Proof.
  apply (kdk_backup_site_tagged_dmg world_timeouts "23E214" no_cache 200 "").
  reflexivity.
Defined.

(** ** get_closest_match_legacy *)





(** ** The candidates of download_kdk *)






Lemma scan_kdk_list_closest_other (parsed : PkgVersion.Version)
  (build : string) (l : list kdk_record) (c c' : candidates) :
  closest_match_download_link c = None \/ closest_build c <> build ->
  scan_kdk_list parsed build l c = Ok c' ->
  closest_match_download_link c' = None \/ closest_build c' <> build.
Proof.
  revert c. induction l as [|k l IH]; intros c Hc; simpl;
    [now intros [= <-]|].
  destruct (PkgVersion.parse (k_version k)) as [v|]; [|discriminate]. simpl.
  destruct (String.eqb (k_build k) build) eqn:Eb.
  - apply IH. exact Hc.
  - match goal with |- context [if ?b then _ else _] => destruct b end.
    + apply IH. simpl. right. now apply String.eqb_neq.
    + apply IH. exact Hc.
Qed.

Lemma legacy_scan_other (host : PkgVersion.Version) (host_build : string)
  (l : list os_record) (link version build : string) :
  legacy_scan host host_build l = Ok (Some link, version, build) ->
  build <> host_build.
Proof.
  induction l as [|e l IH]; cbn [legacy_scan]; [discriminate|].
  destruct (String.eqb (osType e) "macOS"); [|exact IH].
  destruct (version_pattern_match (os_version e)) as [[raw|]|];
    [|exact IH|discriminate]. cbn [result_bind].
  destruct (PkgVersion.parse raw) as [v|]; [|discriminate].
  unfold result_bind.
  destruct (String.eqb (os_build e) host_build) eqn:Eb; [exact IH|].
  match goal with |- context [if ?b then _ else _] => destruct b end;
    [|exact IH].
  intros [= _ _ <-]. now apply String.eqb_neq.
Qed.

Lemma get_closest_match_legacy_other (w : World)
  (host_version host_build : string) (st st' : state)
  (link version build : string) :
  get_closest_match_legacy w host_version host_build st
  = Ok ((Some link, version, build), st') ->
  build <> host_build.
Proof.
  unfold get_closest_match_legacy.
  repeat (unfold bind, lift, perform, ret).
  destruct (PkgVersion.parse host_version) as [host|]; [|discriminate].
  destruct (appledb w (log st)) as [e|status_code text json];
    [discriminate|].
  destruct (negb (status_code =? 200)%Z); [discriminate|].
  destruct (sorted_reverse legacy_sort_key _) as [sorted|];
    [|discriminate].
  destruct (legacy_scan host host_build sorted) as [[[l v] b]|] eqn:Es;
    [|discriminate].
  intros H; inversion H; subst.
  exact (legacy_scan_other _ _ _ _ _ _ Es).
Qed.

(** X8: whatever the catalogue and AppleDB answer, a closest candidate
    with a link is never an entry of the requested build: the loop over the
    catalogue considers an entry as closest only when its build differs,
    and the legacy matcher skips the host build. *)
Theorem resolve_candidates_closest_other_build (w : World)
  (version build : string) (st st' : state) (c : candidates) (link : string) :
  resolve_candidates w version build st = Ok (c, st') ->
  closest_match_download_link c = Some link ->
  closest_build c <> build.
Proof.
  unfold resolve_candidates, bind, lift.
  destruct (get_available_kdks w st) as [[kdk_list st1]|]; [|discriminate].
  destruct (PkgVersion.parse version) as [parsed|]; [|discriminate].
  assert (Legacy :
            (c0 <- get_closest_match_legacy w version build ;;
             let '(closest_match_download_link, closest_version,
                   closest_build) := c0 in
             ret (mkCandidates (Some (generate_kdk_link version build))
                    closest_match_download_link closest_version
                    closest_build)) st1 = Ok (c, st') ->
            closest_match_download_link c = Some link ->
            closest_build c <> build).
  { unfold bind at 1.
    destruct (get_closest_match_legacy w version build st1)
      as [[[[l v] b] st2]|] eqn:El; [|discriminate].
    unfold ret. intros H; inversion H; subst. simpl. intros ->.
    exact (get_closest_match_legacy_other _ _ _ _ _ _ _ _ El). }
  destruct kdk_list as [[|k l]|]; try exact Legacy.
  destruct (scan_kdk_list parsed build (k :: l) (mkCandidates None None "" ""))
    as [c0|] eqn:Es; [|discriminate].
  intros [= <- _] Hl.
  apply scan_kdk_list_closest_other in Es; [|now left].
  destruct Es as [Hn | Hb]; [congruence | exact Hb].
Qed.

Lemma resolve_candidates_closest_other_build_witness :
  closest_build (mkCandidates None (Some (k_url kdk_23D56)) "14.3" "23D56")
  <> "23E214".
Proof.
  apply (resolve_candidates_closest_other_build world_older_only "14.4"
           "23E214" no_cache (mkState None [GetKdkApi])
           (mkCandidates None (Some (k_url kdk_23D56)) "14.3" "23D56")
           (k_url kdk_23D56)).
  - reflexivity.
  - reflexivity.
Defined.

(** X9: a catalogue that answers 200 with an empty list is treated like a
    failed fetch (an exception or another status): the primary link is the
    one generated from the requested version and build, and the closest
    candidate is what the legacy matcher returns, asked right after the
    catalogue request.  The requested version is parsed before AppleDB is
    asked, so that its InvalidVersion is raised first. *)
Theorem resolve_candidates_empty_catalogue (w : World)
  (version build : string) (st : state) :
  match kdk_api w (log st) with
  | Failed _ => True
  | Response status_code _ json => status_code <> 200%Z \/ json = []
  end ->
  resolve_candidates w version build st =
  match PkgVersion.parse version with
  | Raise e => Raise e
  | Ok _ =>
      match get_closest_match_legacy w version build
              (mkState (kdks st) (GetKdkApi :: log st)) with
      | Ok ((closest_link, closest_version, closest_build), st') =>
          Ok (mkCandidates (Some (generate_kdk_link version build))
                closest_link closest_version closest_build, st')
      | Raise e => Raise e
      end
  end.
Proof.
  intros H.
  assert (Hk : get_available_kdks w st
               = Ok (None, mkState (kdks st) (GetKdkApi :: log st))
               \/ get_available_kdks w st
                  = Ok (Some [], mkState (kdks st) (GetKdkApi :: log st))).
  { unfold get_available_kdks, bind, perform, lift, ret.
    destruct (kdk_api w (log st)) as [e|status_code text json];
      [now left|].
    destruct (status_code =? 200)%Z eqn:Es; simpl; [|now left].
    apply Z.eqb_eq in Es. destruct H as [H | ->]; [contradiction|].
    now right. }
  unfold resolve_candidates, bind at 1.
  destruct Hk as [-> | ->]; unfold bind, lift, ret;
    destruct (PkgVersion.parse version); try reflexivity;
    destruct (get_closest_match_legacy w version build _)
      as [[[[l v] b] st']|]; reflexivity.
Qed.

Lemma resolve_candidates_empty_catalogue_witness :
  let w := static_world (Response 200 "" []) (Response 200 "" appledb_sample)
             true token_ok no_mirror true 0 in
  resolve_candidates w "14.4" "23E214" no_cache =
  match PkgVersion.parse "14.4" with
  | Raise e => Raise e
  | Ok _ =>
      match get_closest_match_legacy w "14.4" "23E214"
              (mkState (kdks no_cache) (GetKdkApi :: log no_cache)) with
      | Ok ((closest_link, closest_version, closest_build), st') =>
          Ok (mkCandidates (Some (generate_kdk_link "14.4" "23E214"))
                closest_link closest_version closest_build, st')
      | Raise e => Raise e
      end
  end.
Proof.
  apply (resolve_candidates_empty_catalogue
           (static_world (Response 200 "" [])
              (Response 200 "" appledb_sample) true token_ok no_mirror true 0)
           "14.4" "23E214" no_cache).
  simpl. right. reflexivity.
Defined.

(** ** download_kdk: the paths without a transfer *)

Lemma remove_unused_kdks_removals (constants : Constants)
  (exclude_builds : list string) (st : state) :
  exists st' names,
    remove_unused_kdks constants exclude_builds st = Ok (tt, st') /\
    log st' = (map Remove names ++ log st)%list.
Proof.
  destruct (should_nuke_kdks constants) eqn:Hn;
    [|exists st, []; split; [apply remove_unused_kdks_guard; auto|reflexivity]].
  destruct (kdks st) as [folders|] eqn:Hk;
    [|exists st, []; split; [apply remove_unused_kdks_guard; auto|reflexivity]].
  destruct exclude_builds as [|b bs] eqn:He;
    [exists st, []; split; [apply remove_unused_kdks_guard; auto|reflexivity]|].
  eexists. exists (rev (doomed_names (b :: bs) folders)).
  split.
  - apply (remove_unused_kdks_active _ _ _ folders);
      [assumption | assumption | discriminate].
  - simpl. now rewrite map_rev.
Qed.

(** X10: when the requested build is found installed, [download_kdk]
    returns at once with (True, empty message, requested build), for every
    version string, even one that does not parse, and whatever the
    environment: the only external actions are the removals of the pruning,
    no request, transfer or verification is made. *)
Theorem download_kdk_installed_short_circuit (w : World)
  (constants : Constants) (version build : string) (st st1 : state) :
  is_kdk_installed build st = Ok (true, st1) ->
  exists st' names,
    download_kdk w constants version build st = Ok ((true, "", build), st') /\
    log st' = (map Remove names ++ log st)%list.
Proof.
  intros Hi.
  assert (Hst : st1 = st).
  { revert Hi. unfold is_kdk_installed.
    destruct (kdks st) as [files|]; [|discriminate].
    rewrite is_kdk_installed_loop_find.
    destruct (find (has_suffix build) files) as [f|]; [|discriminate].
    destruct (intact f); [|discriminate]. now intros [= <-]. }
  subst st1.
  destruct (remove_unused_kdks_removals constants [build] st)
    as [st' [names [Hr Hl]]].
  exists st', names. split; [|exact Hl].
  unfold download_kdk, bind. rewrite Hi, Hr. reflexivity.
Qed.

Lemma download_kdk_installed_short_circuit_witness :
  exists st' names,
    download_kdk world_mirror_unreachable sample_constants "not a version"
      "23D56" cache_two_kits = Ok ((true, "", "23D56"), st') /\
    log st' = (map Remove names ++ log cache_two_kits)%list.
Proof.
  apply (download_kdk_installed_short_circuit world_mirror_unreachable
           sample_constants "not a version" "23D56" cache_two_kits
           cache_two_kits).
  reflexivity.
Defined.

(** X11: when the requested build is not installed, the primary link is
    not empty and the connectivity check in front of its probe fails,
    [download_kdk] returns (False, Failed to connect to the internet, empty
    build) right after that check: no token request, no mirror lookup, no
    transfer and no removal follows. *)
Theorem download_kdk_network_down (w : World) (constants : Constants)
  (version build : string) (st st1 st2 : state) (c : candidates)
  (link : string) :
  is_kdk_installed build st = Ok (false, st1) ->
  resolve_candidates w version build st1 = Ok (c, st2) ->
  download_link c = Some link ->
  link <> "" ->
  verify_network_connection w (log st2) = false ->
  download_kdk w constants version build st
  = Ok ((false, "Failed to connect to the internet", ""),
        mkState (kdks st2) (CheckNetwork :: log st2)).
Proof.
  intros Hi Hc Hl Hne Hdown.
  assert (Ht : PyStr.truthy link = true) by now destruct link.
  unfold download_kdk, bind at 1. rewrite Hi.
  unfold bind at 1. rewrite Hc.
  unfold bind at 1. rewrite Hl. simpl. rewrite Ht.
  rewrite verify_apple_developer_portal_unfold, Hdown. reflexivity.
Qed.

Lemma download_kdk_network_down_witness :
  let w := static_world (Response 200 "" [kdk_23E214]) no_db false
             token_ok mirror_23E214 true 0 in
  download_kdk w sample_constants "14.4" "23E214" no_cache
  = Ok ((false, "Failed to connect to the internet", ""),
        mkState (kdks (mkState None [GetKdkApi]))
          (CheckNetwork :: log (mkState None [GetKdkApi]))).
Proof.
  apply (download_kdk_network_down
           (static_world (Response 200 "" [kdk_23E214]) no_db false
              token_ok mirror_23E214 true 0)
           sample_constants "14.4" "23E214" no_cache no_cache
           (mkState None [GetKdkApi])
           (mkCandidates (Some (k_url kdk_23E214)) None "" "")
           (k_url kdk_23E214)).
  - reflexivity.
  - reflexivity.
  - reflexivity.
  - discriminate.
  - reflexivity.
Defined.

(** ** download_kdk: request exceptions and the parse of the link *)

Lemma generate_kdk_link_truthy (version build : string) :
  link_truthy (Some (generate_kdk_link version build)) = true.
Proof. reflexivity. Qed.

(** X12: the request exceptions of the three requests that have a [try]
    are converted, and the run goes on to the mirror.  When the requested
    build is not installed, the catalogue request and the AppleDB request
    each raise one of Timeout, TooManyRedirects and ConnectionError, the
    requested version parses, the connectivity check passes, [urlparse]
    accepts the generated link and the token request raises one of the
    three exceptions as well, [download_kdk] is what the lookup of the
    requested build in the mirror makes of it: the failure "could not find
    a backup copy online" when the mirror has no link, the transfer and the
    verification of the link it has, and the exception of the lookup when it
    raises. *)
Theorem download_kdk_request_faults_reach_mirror (w : World)
  (constants : Constants) (version build : string) (st st1 : state)
  (parsed : PkgVersion.Version) (remote_path : string)
  (e1 e2 e3 : request_exception) :
  let link := generate_kdk_link version build in
  let h := GetAppleDB :: GetKdkApi :: log st1 in
  is_kdk_installed build st = Ok (false, st1) ->
  kdk_api w (log st1) = Failed e1 ->
  PkgVersion.parse version = Ok parsed ->
  appledb w (GetKdkApi :: log st1) = Failed e2 ->
  verify_network_connection w h = true ->
  urlparse_path w link = Ok remote_path ->
  token_endpoint w (CheckNetwork :: h) remote_path = Failed e3 ->
  download_kdk w constants version build st =
  match kdk_backup_site w build
          (mkState (kdks st1) (GetToken link :: CheckNetwork :: h)) with
  | Ok (Some mirror_link, st') =>
      download_and_verify w constants build "" mirror_link st'
  | Ok (None, st') =>
      Ok ((false,
           "Could not contact Apple download servers and could not find a backup copy online",
           ""), st')
  | Raise e => Raise e
  end.
Proof.
  intros link h Hi Hapi Hparse Hdb Hup Hurl Htoken. subst link h.
  assert (Hc : resolve_candidates w version build st1
               = Ok (mkCandidates (Some (generate_kdk_link version build))
                       None "" "",
                     mkState (kdks st1) (GetAppleDB :: GetKdkApi :: log st1))).
  { unfold resolve_candidates, get_available_kdks, get_closest_match_legacy.
    repeat (unfold bind, perform, lift, ret). rewrite Hapi, Hparse. simpl.
    now rewrite Hdb. }
  unfold download_kdk, bind at 1. rewrite Hi.
  unfold bind at 1. rewrite Hc.
  unfold bind at 1. cbn [download_link closest_build].
  rewrite generate_kdk_link_truthy, verify_apple_developer_portal_unfold.
  cbn [log kdks]. rewrite Hup, Hurl. cbv zeta. rewrite Htoken.
  cbn [Z.eqb Pos.eqb]. unfold bind.
  destruct (kdk_backup_site w build _) as [[[mirror_link|] st']|e];
    reflexivity.
Qed.

Lemma download_kdk_request_faults_reach_mirror_witness :
  let link := generate_kdk_link "14.4" "23E214" in
  let h := GetAppleDB :: GetKdkApi :: log no_cache in
  download_kdk world_timeouts sample_constants "14.4" "23E214" no_cache =
  match kdk_backup_site world_timeouts "23E214"
          (mkState (kdks no_cache) (GetToken link :: CheckNetwork :: h)) with
  | Ok (Some mirror_link, st') =>
      download_and_verify world_timeouts sample_constants "23E214" ""
        mirror_link st'
  | Ok (None, st') =>
      Ok ((false,
           "Could not contact Apple download servers and could not find a backup copy online",
           ""), st')
  | Raise e => Raise e
  end.
Proof.
  apply (download_kdk_request_faults_reach_mirror world_timeouts
           sample_constants "14.4" "23E214" no_cache no_cache
           (PkgVersion.mkVersion [14%N; 4%N])
           "/macOS/Kernel_Debug_Kit_14.4_build_23E214/Kernel_Debug_Kit_14.4_build_23E214.dmg"
           Timeout Timeout Timeout); reflexivity.
Defined.

(** X13: a link that [urlparse] rejects makes [download_kdk] raise.  When
    the requested build is not installed, the primary link is not empty,
    the connectivity check in front of its probe passes and [urlparse]
    raises on the link, that exception leaves [download_kdk]: the parse of
    line 108 is outside every [try]. *)
Theorem download_kdk_rejected_link_raises (w : World) (constants : Constants)
  (version build : string) (st st1 st2 : state) (c : candidates)
  (link : string) (e : exn) :
  is_kdk_installed build st = Ok (false, st1) ->
  resolve_candidates w version build st1 = Ok (c, st2) ->
  download_link c = Some link ->
  link <> "" ->
  verify_network_connection w (log st2) = true ->
  urlparse_path w link = Raise e ->
  download_kdk w constants version build st = Raise e.
Proof.
  intros Hi Hc Hl Hne Hup Hurl.
  assert (Ht : PyStr.truthy link = true) by now destruct link.
  unfold download_kdk, bind at 1. rewrite Hi.
  unfold bind at 1. rewrite Hc.
  unfold bind at 1. rewrite Hl. simpl. rewrite Ht.
  rewrite verify_apple_developer_portal_unfold, Hup, Hurl. reflexivity.
Qed.

Lemma download_kdk_rejected_link_raises_witness :
  download_kdk world_bad_link sample_constants "14.4" "23E214" no_cache
  = Raise (ValueError "Invalid IPv6 URL").
Proof.
  apply (download_kdk_rejected_link_raises world_bad_link sample_constants
           "14.4" "23E214" no_cache no_cache (mkState None [GetKdkApi])
           (mkCandidates (Some (k_url kdk_bad_link)) None "" "")
           (k_url kdk_bad_link) (ValueError "Invalid IPv6 URL")).
  - reflexivity.
  - reflexivity.
  - reflexivity.
  - discriminate.
  - reflexivity.
  - reflexivity.
Defined.

(** ** download_kdk: what it returns *)

Lemma yields_ret {A} (Q : A -> Prop) (P : exn -> Prop) (a : A) :
  Q a -> yields Q P (ret a).
Proof. intros H st. exact H. Qed.

Lemma yields_raise {A} (Q : A -> Prop) (P : exn -> Prop) (e : exn) :
  P e -> yields Q P (raise e).
Proof. intros H st. exact H. Qed.

Lemma yields_bind {A B} (Q : A -> Prop) (Q' : B -> Prop) (P : exn -> Prop)
  (m : M A) (k : A -> M B) :
  yields Q P m -> (forall a, Q a -> yields Q' P (k a)) ->
  yields Q' P (bind m k).
Proof.
  intros Hm Hk st. unfold bind. specialize (Hm st).
  destruct (m st) as [[a st1]|e]; [exact (Hk a Hm st1) | exact Hm].
Qed.

Lemma yields_lift {A} (Q : A -> Prop) (P : exn -> Prop) (r : result A) :
  match r with Ok a => Q a | Raise e => P e end -> yields Q P (lift r).
Proof. intros H st. unfold lift. now destruct r. Qed.

Lemma yields_perform {A} (Q : A -> Prop) (P : exn -> Prop) (ev : event)
  (answer : list event -> A) :
  (forall h, Q (answer h)) -> yields Q P (perform ev answer).
Proof. intros H st. apply H. Qed.

(** A computation that always returns raises nothing. *)
Lemma returns_yields {A} (Q : A -> Prop) (P : exn -> Prop) (m : M A) :
  returns Q m -> yields Q P m.
Proof.
  intros H st. destruct (H st) as [a [st' [E Ha]]]. now rewrite E.
Qed.

Lemma yields_anything {A} (m : M A) :
  yields (fun _ => True) any_exception m.
Proof. intros st. now destruct (m st) as [[a st']|e]. Qed.

(** The probe returns one of its four codes. *)
Lemma yields_verify_apple_developer_portal (w : World) (link : string) :
  yields (fun r => r = 0 \/ r = 1 \/ r = 2 \/ r = 3)%Z any_exception
    (verify_apple_developer_portal w link).
Proof.
  intros st. rewrite verify_apple_developer_portal_unfold.
  destruct (verify_network_connection w (log st)); [|tauto].
  destruct (urlparse_path w link) as [remote_path|e]; [|exact I].
  cbv zeta.
  destruct (token_endpoint w (CheckNetwork :: log st) remote_path)
    as [e | status_code text j]; [tauto|].
  destruct (raises_for_status status_code); [|tauto].
  destruct ((status_code =? 400)%Z
            && PyStr.contains "The path specified is invalid" text); tauto.
Qed.

Lemma yields_weaken {A} (Q Q' : A -> Prop) (P P' : exn -> Prop) (m : M A) :
  yields Q P m -> (forall a, Q a -> Q' a) -> (forall e, P e -> P' e) ->
  yields Q' P' m.
Proof.
  intros H HQ HP st. specialize (H st).
  destruct (m st) as [[a st']|e]; auto.
Qed.

Lemma yields_download_and_verify (w : World) (constants : Constants)
  (detected_build closest_build download_link : string) (P : exn -> Prop) :
  yields known_outcome P
    (download_and_verify w constants detected_build closest_build
       download_link).
Proof.
  unfold download_and_verify.
  eapply yields_bind with (Q := fun _ => True).
  { apply returns_yields. intros st.
    destruct (transfer_log w download_link st) as [ok [st' [H _]]].
    now exists ok, st'. }
  intros [|] _;
    [|apply yields_ret; split; [reflexivity | simpl; tauto]].
  eapply yields_bind with (Q := fun _ => True);
    [now apply yields_perform|].
  intros returncode _.
  destruct (negb (returncode =? 0)%Z);
    [apply yields_ret; split; [reflexivity | simpl; tauto]|].
  eapply yields_bind;
    [apply returns_yields, returns_remove_unused_kdks|].
  intros _ _. now apply yields_ret.
Qed.

Lemma yields_closest_match_branch (w : World) (constants : Constants)
  (detected_build : string) (c : candidates) :
  yields known_outcome any_exception
    (closest_match_branch w constants detected_build c).
Proof.
  unfold closest_match_branch.
  eapply yields_bind; [apply returns_yields, returns_is_kdk_installed|].
  intros [|] _.
  { eapply yields_bind;
      [apply returns_yields, returns_remove_unused_kdks|].
    intros _ _. now apply yields_ret. }
  destruct (closest_match_download_link c) as [closest_link|];
    [|apply yields_ret; split; [reflexivity | simpl; tauto]].
  eapply yields_bind; [apply yields_verify_apple_developer_portal|].
  intros result _.
  destruct (result =? 0)%Z; [apply yields_download_and_verify|].
  destruct (result =? 1)%Z;
    [apply yields_ret; split; [reflexivity | simpl; tauto]|].
  destruct (result =? 2)%Z;
    [|apply yields_ret; split; [reflexivity | simpl; tauto]].
  eapply yields_bind; [apply yields_anything|].
  intros [download_link|] _;
    [apply yields_download_and_verify
    | apply yields_ret; split; [reflexivity | simpl; tauto]].
Qed.

(** The whole of [download_kdk]: its outcomes. *)
Lemma yields_download_kdk (w : World) (constants : Constants)
  (version build : string) :
  yields known_outcome any_exception
    (download_kdk w constants version build).
Proof.
  unfold download_kdk.
  eapply yields_bind; [apply returns_yields, returns_is_kdk_installed|].
  intros [|] _.
  { eapply yields_bind;
      [apply returns_yields, returns_remove_unused_kdks|].
    intros _ _. now apply yields_ret. }
  eapply yields_bind with (Q := fun _ => True); [apply yields_anything|].
  intros c _.
  eapply yields_bind
    with (Q := fun r => ((r = 0)%Z /\ exists l, download_link c = Some l)
                        \/ (r = 1 \/ r = 2 \/ r = 3)%Z).
  { destruct (download_link c) as [l|];
      [|destruct (link_truthy None); apply yields_ret; auto].
    destruct (link_truthy (Some l)); [|apply yields_ret; auto].
    eapply yields_weaken;
      [apply yields_verify_apple_developer_portal | | auto].
    intros r [-> | Hr];
      [left; split; [reflexivity | now exists l] | now right]. }
  intros result [[-> [l Hl]] | [-> | [-> | ->]]]; simpl.
  - rewrite Hl. apply yields_download_and_verify.
  - apply yields_closest_match_branch.
  - eapply yields_bind; [apply yields_anything|].
    intros [download_link|] _;
      [apply yields_download_and_verify
      | apply yields_ret; split; [reflexivity | simpl; tauto]].
  - apply yields_ret. split; [reflexivity | simpl; tauto].
Qed.

(** X14: a failure of [download_kdk] has the empty string as build and one
    of the seven messages of the function; a success has the empty
    message. *)
Theorem download_kdk_outcomes (w : World) (constants : Constants)
  (version build : string) (st st' : state) (ok : bool)
  (msg resolved : string) :
  download_kdk w constants version build st = Ok ((ok, msg, resolved), st') ->
  if ok then msg = ""
  else resolved = "" /\
       In msg
         [ "Could not find KDK for host, nor closest match";
           "Could not find KDK for host on Apple's servers, nor closest match";
           "Could not contact Apple download servers and could not find a backup copy online";
           "Unknown error";
           "Failed to connect to the internet";
           msg_checksum;
           "Failed to download KDK" ].
Proof.
  intros H. pose proof (yields_download_kdk w constants version build st) as Y.
  rewrite H in Y. destruct ok; exact Y.
Qed.

Lemma download_kdk_outcomes_witness :
  "" = "" /\
  In "Could not find KDK for host, nor closest match"
    [ "Could not find KDK for host, nor closest match";
      "Could not find KDK for host on Apple's servers, nor closest match";
      "Could not contact Apple download servers and could not find a backup copy online";
      "Unknown error";
      "Failed to connect to the internet";
      msg_checksum;
      "Failed to download KDK" ].
Proof.
  exact (download_kdk_outcomes world_nothing_close sample_constants "14.4"
           "23E214" no_cache (mkState None [GetKdkApi]) false
           "Could not find KDK for host, nor closest match" "" eq_refl).
Defined.

(** ** download_kdk: transfers *)

Lemma download_and_verify_account (w : World) (constants : Constants)
  (detected_build closest_build download_link : string) (st st' : state)
  (o : outcome) :
  download_and_verify w constants detected_build closest_build download_link st
  = Ok (o, st') ->
  transferred (log st') = download_link :: transferred (log st) /\
  (fst (fst o) = true -> transferred_and_verified w download_link).
Proof.
  unfold download_and_verify, bind, transfer, transferred_and_verified.
  destruct (PyStr.contains "github" download_link); unfold perform at 1;
    match goal with
    | |- context [if ?b then _ else _] => destruct b eqn:Ed
    end;
    try (unfold ret; intros [= <- <-]; simpl; split;
         [reflexivity | discriminate]);
    unfold perform at 1; simpl;
    match goal with
    | |- context [negb ?b] => destruct b eqn:Eh
    end; simpl;
    try (unfold ret; intros [= <- <-]; simpl; split;
         [reflexivity | discriminate]);
    match goal with
    | |- context [remove_unused_kdks ?c ?x ?s] =>
        destruct (remove_unused_kdks c x s) as [[u st2]|] eqn:Hr;
        [|discriminate]
    end;
    unfold ret; intros [= <- <-];
    apply quiet_remove_unused_kdks in Hr; rewrite Hr; simpl;
    (split; [reflexivity|]); intros _; exists (log st);
    apply Z.eqb_eq in Eh; auto.
Qed.

Lemma closest_match_branch_account (w : World) (constants : Constants)
  (detected_build : string) (c : candidates) (st st' : state) (o : outcome) :
  closest_match_branch w constants detected_build c st = Ok (o, st') ->
  transfer_account w st st' (fst (fst o)).
Proof.
  unfold closest_match_branch, bind.
  destruct (is_kdk_installed (closest_build c) st) as [[installed st1]|] eqn:Hi;
    [|discriminate].
  pose proof (quiet_is_kdk_installed _ _ _ _ Hi) as Hq1.
  assert (Down : forall link st2 o st',
             transferred (log st2) = transferred (log st) ->
             download_and_verify w constants detected_build (closest_build c)
               link st2 = Ok (o, st') ->
             transfer_account w st st' (fst (fst o))).
  { intros link st2 o0 st0 Hq H. apply download_and_verify_account in H.
    destruct H as [Hl Hv]. right. exists link. split; [congruence|exact Hv]. }
  destruct installed.
  - destruct (remove_unused_kdks constants [detected_build; closest_build c] st1)
      as [[u st2]|] eqn:Hr; [|discriminate].
    unfold ret. intros [= <- <-]. left.
    apply quiet_remove_unused_kdks in Hr. congruence.
  - destruct (closest_match_download_link c) as [closest_link|];
      [|unfold ret; intros [= <- <-]; left; congruence].
    destruct (verify_apple_developer_portal w closest_link st1)
      as [[result st2]|] eqn:Hv; [|discriminate].
    pose proof (quiet_verify_apple_developer_portal _ _ _ _ _ Hv) as Hq2.
    destruct (result =? 0)%Z; [apply Down; congruence|].
    destruct (result =? 1)%Z;
      [unfold ret; intros [= <- <-]; left; congruence|].
    destruct (result =? 2)%Z;
      [|unfold ret; intros [= <- <-]; left; congruence].
    destruct (kdk_backup_site w (closest_build c) st2)
      as [[download_link st3]|] eqn:Hb; [|discriminate].
    pose proof (quiet_kdk_backup_site _ _ _ _ _ Hb) as Hq3.
    destruct download_link as [download_link|];
      [apply Down; congruence
      | unfold ret; intros [= <- <-]; left; congruence].
Qed.

Lemma download_kdk_account (w : World) (constants : Constants)
  (version build : string) (st st' : state) (o : outcome) :
  download_kdk w constants version build st = Ok (o, st') ->
  transfer_account w st st' (fst (fst o)).
Proof.
  unfold download_kdk, bind.
  destruct (is_kdk_installed build st) as [[installed st1]|] eqn:Hi;
    [|discriminate].
  pose proof (quiet_is_kdk_installed _ _ _ _ Hi) as Hq1.
  destruct installed.
  { destruct (remove_unused_kdks constants [build] st1)
      as [[u st2]|] eqn:Hr; [|discriminate].
    unfold ret. intros [= <- <-]. left.
    apply quiet_remove_unused_kdks in Hr. congruence. }
  destruct (resolve_candidates w version build st1) as [[c st2]|] eqn:Hc;
    [|discriminate].
  pose proof (quiet_resolve_candidates _ _ _ _ _ _ Hc) as Hq2.
  set (probe := if link_truthy (download_link c) then
                  match download_link c with
                  | Some link => verify_apple_developer_portal w link
                  | None => ret 1%Z
                  end
                else ret 1%Z).
  assert (Hprobe : quiet probe).
  { subst probe. destruct (link_truthy (download_link c));
      [destruct (download_link c)|];
      auto using quiet_verify_apple_developer_portal, quiet_ret. }
  destruct (probe st2) as [[result st3]|] eqn:Hp; [|discriminate].
  apply Hprobe in Hp.
  assert (Proceed : forall link st4,
             transferred (log st4) = transferred (log st) ->
             match link with
             | Some download_link =>
                 download_and_verify w constants build (closest_build c)
                   download_link
             | None => raise TypeError
             end st4 = Ok (o, st') ->
             transfer_account w st st' (fst (fst o))).
  { intros [l|] st4 Hq H; [|discriminate H].
    apply download_and_verify_account in H. destruct H as [Hl Hv].
    right. exists l. split; [congruence | exact Hv]. }
  destruct (result =? 0)%Z; [apply Proceed; congruence|].
  destruct (result =? 1)%Z.
  { intros H. apply closest_match_branch_account in H.
    destruct H as [Hs | [l [Hl Hv]]]; [left | right; exists l; split];
      try assumption; congruence. }
  destruct (result =? 2)%Z.
  { destruct (kdk_backup_site w build st3) as [[download_link st4]|] eqn:Hb;
      [|discriminate].
    apply quiet_kdk_backup_site in Hb.
    destruct download_link as [download_link|];
      [apply (Proceed (Some download_link)); congruence
      | unfold ret; intros [= <- <-]; left; congruence]. }
  destruct (result =? 3)%Z;
    [unfold ret; intros [= <- <-]; left; congruence|].
  apply Proceed; congruence.
Qed.

(** X15: one call of [download_kdk] that returns, with success or with
    failure, has made at most one transfer. *)
Theorem download_kdk_at_most_one_transfer (w : World) (constants : Constants)
  (version build : string) (st st' : state) (o : outcome) :
  download_kdk w constants version build st = Ok (o, st') ->
  transferred (log st') = transferred (log st)
  \/ exists link, transferred (log st') = link :: transferred (log st).
Proof.
  intros H. apply download_kdk_account in H.
  destruct H as [Hs | [l [Hl _]]]; [now left | right; now exists l].
Qed.

Lemma download_kdk_at_most_one_transfer_witness :
  let st' := mkState None
               [HdiutilVerify; DownloadPortal (k_url kdk_23D56);
                GetToken (k_url kdk_23D56); CheckNetwork; GetKdkApi] in
  transferred (log st') = transferred (log no_cache)
  \/ exists link, transferred (log st') = link :: transferred (log no_cache).
Proof.
  exact (download_kdk_at_most_one_transfer world_older_only sample_constants
           "14.4" "23E214" no_cache _ (true, "", "23E214") eq_refl).
Defined.

Lemma cons_not_self {A} (x : A) (l : list A) : l <> x :: l.
Proof.
  intros H. apply (f_equal (@length A)) in H. simpl in H. lia.
Qed.

(** X16: when [download_kdk] reports success after having transferred a
    link, the transfer function was answered True for that link and the
    hdiutil verification that followed returned 0.  A link that mentions
    github was fetched with [download_file], any other through the
    developer portal. *)
Theorem download_kdk_success_verified (w : World) (constants : Constants)
  (version build : string) (st st' : state) (msg resolved link : string) :
  download_kdk w constants version build st = Ok ((true, msg, resolved), st') ->
  transferred (log st') = link :: transferred (log st) ->
  exists h,
    if PyStr.contains "github" link
    then download_file w h link = true
         /\ hdiutil_verify w (DownloadFile link :: h) = 0%Z
    else download_apple_developer_portal w h link = true
         /\ hdiutil_verify w (DownloadPortal link :: h) = 0%Z.
Proof.
  intros H Ht. apply download_kdk_account in H. simpl in H.
  destruct H as [Hs | [l [Hl Hv]]].
  - rewrite Hs in Ht. now apply cons_not_self in Ht.
  - rewrite Hl in Ht. injection Ht as ->. now apply Hv.
Qed.

Lemma download_kdk_success_verified_witness :
  let link := "https://github.com/dortania/KdkSupportPkg/releases/download/23E214/Kernel_Debug_Kit_14.4_build_23E214.dmg" in
  exists h,
    if PyStr.contains "github" link
    then download_file world_timeouts h link = true
         /\ hdiutil_verify world_timeouts (DownloadFile link :: h) = 0%Z
    else download_apple_developer_portal world_timeouts h link = true
         /\ hdiutil_verify world_timeouts (DownloadPortal link :: h) = 0%Z.
Proof.
  apply (download_kdk_success_verified world_timeouts sample_constants "14.4"
           "23E214" no_cache
           (mkState None
              [HdiutilVerify;
               DownloadFile
                 "https://github.com/dortania/KdkSupportPkg/releases/download/23E214/Kernel_Debug_Kit_14.4_build_23E214.dmg";
               GetMirror;
               GetToken (generate_kdk_link "14.4" "23E214");
               CheckNetwork; GetAppleDB; GetKdkApi])
           "" "23E214").
  - reflexivity.
  - reflexivity.
Defined.

(** ** Suffixes *)

Lemma string_length_app (a b : string) :
  String.length (a ++ b) = (String.length a + String.length b)%nat.
Proof. induction a as [|x a IH]; simpl; now rewrite ?IH. Qed.

Lemma substring_all (s : string) : substring 0 (String.length s) s = s.
Proof. induction s as [|c s IH]; simpl; now rewrite ?IH. Qed.

Lemma substring_skip (pre suf : string) :
  substring (String.length pre) (String.length suf) (pre ++ suf) = suf.
Proof. induction pre as [|c pre IH]; simpl; [apply substring_all|exact IH]. Qed.

Lemma substring_split (k : nat) (s : string) :
  (k <= String.length s)%nat ->
  s = substring 0 k s ++ substring k (String.length s - k) s.
Proof.
  revert s. induction k as [|k IH]; intros s Hk.
  - rewrite Nat.sub_0_r, substring_all. now destruct s.
  - destruct s as [|c s]; simpl in *; [lia|].
    f_equal. apply IH. lia.
Qed.

(** [s.endswith(suffix)] holds exactly when [s] is some text followed by
    [suffix]. *)
Lemma endswith_iff (s suffix : string) :
  PyStr.endswith s suffix = true <-> exists pre, s = pre ++ suffix.
Proof.
  unfold PyStr.endswith. split.
  - destruct (String.length suffix <=? String.length s)%nat eqn:E;
      [|discriminate].
    apply Nat.leb_le in E. intros H. apply String.eqb_eq in H.
    exists (substring 0 (String.length s - String.length suffix) s).
    assert (Hk : (String.length s - String.length suffix
                  <= String.length s)%nat) by lia.
    pose proof (substring_split _ s Hk) as Hs.
    replace (String.length s - (String.length s - String.length suffix))%nat
      with (String.length suffix) in Hs by lia.
    now rewrite H in Hs.
  - intros [pre ->]. rewrite string_length_app.
    replace (String.length suffix <=? String.length pre + String.length suffix)%nat
      with true by (symmetry; apply Nat.leb_le; lia).
    replace (String.length pre + String.length suffix - String.length suffix)%nat
      with (String.length pre) by lia.
    rewrite substring_skip. apply String.eqb_refl.
Qed.

Lemma endswith_app (s a b : string) :
  PyStr.endswith s (a ++ b) = true -> PyStr.endswith s b = true.
Proof.
  rewrite !endswith_iff. intros [pre ->]. exists (pre ++ a).
  now rewrite string_app_assoc.
Qed.

(** ** download_kdk: what it leaves in the cache *)

Lemma stable_ret {A} (a : A) : stable (ret a).
Proof. intros st a' st' [= _ <-]. reflexivity. Qed.

Lemma stable_raise {A} (e : exn) : stable (raise (A := A) e).
Proof. intros st a st' H. discriminate H. Qed.

Lemma stable_lift {A} (r : result A) : stable (lift r).
Proof.
  intros st a st'. unfold lift. destruct r; [|discriminate].
  intros [= _ <-]. reflexivity.
Qed.

Lemma stable_perform {A} (ev : event) (answer : list event -> A) :
  stable (perform ev answer).
Proof. intros st a st'. unfold perform. intros [= _ <-]. reflexivity. Qed.

Lemma stable_bind {A B} (m : M A) (k : A -> M B) :
  stable m -> (forall a, stable (k a)) -> stable (bind m k).
Proof.
  intros Hm Hk st b st'. unfold bind.
  destruct (m st) as [[a st1]|] eqn:E; [|discriminate].
  intros H. rewrite (Hk a _ _ _ H). exact (Hm _ _ _ E).
Qed.

(** One step through a computation built from the stable primitives. *)
Ltac stable_step :=
  first
    [ apply stable_ret | apply stable_raise | apply stable_lift
    | apply stable_perform
    | apply stable_bind; [|intros ?]
    | match goal with
      | |- stable (if ?b then _ else _) => destruct b
      | |- stable (match ?x with _ => _ end) => destruct x
      end ].

Lemma stable_verify_apple_developer_portal (w : World) (link : string) :
  stable (verify_apple_developer_portal w link).
Proof. unfold verify_apple_developer_portal. repeat stable_step. Qed.

Lemma stable_kdk_backup_site (w : World) (build : string) :
  stable (kdk_backup_site w build).
Proof. unfold kdk_backup_site. repeat stable_step. Qed.

Lemma stable_transfer (w : World) (link : string) : stable (transfer w link).
Proof. unfold transfer. repeat stable_step. Qed.

Lemma stable_resolve_candidates (w : World) (version build : string) :
  stable (resolve_candidates w version build).
Proof.
  unfold resolve_candidates.
  apply stable_bind;
    [unfold get_available_kdks; repeat stable_step | intros kdk_list].
  apply stable_bind; [apply stable_lift | intros parsed].
  destruct kdk_list as [[|k l]|]; try apply stable_lift;
    (apply stable_bind;
     [unfold get_closest_match_legacy; repeat stable_step|]);
    intros [[a b] c]; apply stable_ret.
Qed.

Lemma stable_preserves {A} (I : list kdk_folder -> Prop) (m : M A) :
  stable m -> preserves I m.
Proof.
  intros H st a st' E. unfold listing. now rewrite (H _ _ _ E).
Qed.

Lemma preserves_ret {A} (I : list kdk_folder -> Prop) (a : A) :
  preserves I (ret a).
Proof. apply stable_preserves, stable_ret. Qed.

Lemma preserves_bind {A B} (I : list kdk_folder -> Prop) (m : M A)
  (k : A -> M B) :
  preserves I m -> (forall a, preserves I (k a)) -> preserves I (bind m k).
Proof.
  intros Hm Hk st b st'. unfold bind.
  destruct (m st) as [[a st1]|] eqn:E; [|discriminate].
  intros H HI. exact (Hk a _ _ _ H (Hm _ _ _ E HI)).
Qed.

(** What a call of [is_kdk_installed] can do to the state. *)
Lemma is_kdk_installed_cases (build : string) (st st' : state) (a : bool) :
  is_kdk_installed build st = Ok (a, st') ->
  st' = st \/
  exists g,
    In g (listing st) /\ has_suffix build g = true /\ intact g = false /\
    listing st'
    = filter (fun x => negb (String.eqb (name x) (name g))) (listing st).
Proof.
  unfold is_kdk_installed, listing.
  destruct (kdks st) as [files|] eqn:Hk; [|intros [= _ <-]; now left].
  rewrite is_kdk_installed_loop_find.
  destruct (find (has_suffix build) files) as [g|] eqn:E;
    [|intros [= _ <-]; now left].
  destruct (intact g) eqn:Hi; intros [= _ <-]; [now left|].
  right. apply find_some in E. destruct E as [Hin Hs].
  exists g. unfold without. simpl. rewrite Hk. auto.
Qed.

(** What a call of [remove_unused_kdks] can do to the listing. *)
Lemma remove_unused_kdks_cases (constants : Constants)
  (exclude_builds : list string) (st st' : state) :
  remove_unused_kdks constants exclude_builds st = Ok (tt, st') ->
  st' = st \/
  listing st'
  = filter (fun f =>
              negb (existsb (String.eqb (name f))
                      (doomed_names exclude_builds (listing st))))
      (listing st).
Proof.
  destruct (should_nuke_kdks constants) eqn:Hn;
    [|rewrite remove_unused_kdks_guard by auto; intros [= <-]; now left].
  destruct (kdks st) as [folders|] eqn:Hk;
    [|rewrite remove_unused_kdks_guard by auto; intros [= <-]; now left].
  destruct exclude_builds as [|b bs] eqn:He;
    [rewrite remove_unused_kdks_guard by auto; intros [= <-]; now left|].
  rewrite (remove_unused_kdks_active _ _ _ folders) by (auto; discriminate).
  intros [= <-]. right. unfold listing. simpl. now rewrite Hk.
Qed.

Section Preservation.

Variables (w : World) (constants : Constants) (build : string).
Variable I : list kdk_folder -> Prop.

Hypothesis I_installed : forall b, preserves I (is_kdk_installed b).
Hypothesis I_pruned :
  forall exclude_builds,
    In build exclude_builds ->
    preserves I (remove_unused_kdks constants exclude_builds).

Lemma preserves_download_and_verify (closest_build download_link : string) :
  preserves I
    (download_and_verify w constants build closest_build download_link).
Proof.
  unfold download_and_verify.
  apply preserves_bind; [apply stable_preserves, stable_transfer|].
  intros [|]; [|apply preserves_ret].
  apply preserves_bind; [apply stable_preserves, stable_perform|].
  intros returncode.
  destruct (negb (returncode =? 0)%Z); [apply preserves_ret|].
  apply preserves_bind; [apply I_pruned; simpl; auto|].
  intros _. apply preserves_ret.
Qed.

Lemma preserves_closest_match_branch (c : candidates) :
  preserves I (closest_match_branch w constants build c).
Proof.
  unfold closest_match_branch.
  apply preserves_bind; [apply I_installed|].
  intros [|].
  { apply preserves_bind; [apply I_pruned; simpl; auto|].
    intros _. apply preserves_ret. }
  destruct (closest_match_download_link c) as [closest_link|];
    [|apply preserves_ret].
  apply preserves_bind;
    [apply stable_preserves, stable_verify_apple_developer_portal|].
  intros result.
  destruct (result =? 0)%Z; [apply preserves_download_and_verify|].
  destruct (result =? 1)%Z; [apply preserves_ret|].
  destruct (result =? 2)%Z; [|apply preserves_ret].
  apply preserves_bind; [apply stable_preserves, stable_kdk_backup_site|].
  intros [download_link|];
    [apply preserves_download_and_verify | apply preserves_ret].
Qed.

Lemma preserves_download_kdk (version : string) :
  preserves I (download_kdk w constants version build).
Proof.
  unfold download_kdk.
  apply preserves_bind; [apply I_installed|].
  intros [|].
  { apply preserves_bind; [apply I_pruned; simpl; auto|].
    intros _. apply preserves_ret. }
  apply preserves_bind; [apply stable_preserves, stable_resolve_candidates|].
  intros c.
  assert (Proceed : forall l,
             preserves I
               match l with
               | Some download_link =>
                   download_and_verify w constants build (closest_build c)
                     download_link
               | None => raise TypeError
               end).
  { intros [l|]; [apply preserves_download_and_verify|].
    apply stable_preserves, stable_raise. }
  apply preserves_bind.
  { destruct (link_truthy (download_link c)); [|apply preserves_ret].
    destruct (download_link c); [|apply preserves_ret].
    apply stable_preserves, stable_verify_apple_developer_portal. }
  intros result.
  destruct (result =? 0)%Z; [apply Proceed|].
  destruct (result =? 1)%Z; [apply preserves_closest_match_branch|].
  destruct (result =? 2)%Z.
  { apply preserves_bind; [apply stable_preserves, stable_kdk_backup_site|].
    intros [download_link|];
      [apply (Proceed (Some download_link)) | apply preserves_ret]. }
  destruct (result =? 3)%Z; [apply preserves_ret | apply Proceed].
Qed.

End Preservation.

(** X17: [download_kdk] never removes an entry of the cache root whose
    name does not end in .kdk: such an entry is still listed when the call
    returns, with success or with failure. *)
Theorem download_kdk_keeps_other_entries (w : World) (constants : Constants)
  (version build : string) (st st' : state) (o : outcome) (f : kdk_folder) :
  PyStr.endswith (name f) ".kdk" = false ->
  In f (listing st) ->
  download_kdk w constants version build st = Ok (o, st') ->
  In f (listing st').
Proof.
  intros Hs Hin Hrun.
  apply (preserves_download_kdk w constants build (fun l => In f l))
    with (version := version) (st := st) (a := o); try assumption.
  - intros b st0 a st1 Hi H0.
    apply is_kdk_installed_cases in Hi.
    destruct Hi as [-> | [g [_ [Hg [_ ->]]]]]; [assumption|].
    apply filter_In. split; [assumption|].
    apply negb_true_iff, String.eqb_neq. intros Heq.
    apply andb_prop in Hg. destruct Hg as [_ Hg].
    apply endswith_app in Hg. congruence.
  - intros ex _ st0 [] st1 Hr H0.
    apply remove_unused_kdks_cases in Hr.
    destruct Hr as [-> | ->]; [assumption|].
    apply filter_In. split; [assumption|].
    destruct (existsb _ _) eqn:E; [|reflexivity].
    apply existsb_name_doomed in E. destruct E as [E _]. congruence.
Qed.

Lemma download_kdk_keeps_other_entries_witness :
  let notes := mkFolder "README.txt" false [] in
  let st := mkState (Some [notes; kit "KDK_14.3_23D56.kdk"]) [] in
  In notes
    (listing
       (mkState (Some [notes])
          [Remove "KDK_14.3_23D56.kdk"; HdiutilVerify;
           DownloadPortal (k_url kdk_23E214); GetToken (k_url kdk_23E214);
           CheckNetwork; GetKdkApi])).
Proof.
  apply (download_kdk_keeps_other_entries
           (static_world (Response 200 "" [kdk_23E214]) no_db true token_ok
              no_mirror true 0)
           sample_constants "14.4" "23E214"
           (mkState
              (Some [mkFolder "README.txt" false [];
                     kit "KDK_14.3_23D56.kdk"]) [])
           _ (true, "", "23E214") (mkFolder "README.txt" false [])).
  - reflexivity.
  - simpl. left. reflexivity.
  - reflexivity.
Defined.

Lemma sole_name_filter (f : kdk_folder) (p : kdk_folder -> bool)
  (l : list kdk_folder) :
  sole_name f l -> sole_name f (filter p l).
Proof.
  intros H g Hg. apply filter_In in Hg. destruct Hg as [Hg _]. now apply H.
Qed.

(** X18: [download_kdk] never removes an intact kit of the requested
    build.  When the requested build is not the empty string, an entry of
    the cache root whose name ends with the build and .kdk, with the four
    kernel extensions in place and a name no other entry has, is still
    listed when the call returns, with success or with failure. *)
Theorem download_kdk_keeps_requested_kit (w : World) (constants : Constants)
  (version build : string) (st st' : state) (o : outcome) (f : kdk_folder) :
  build <> "" ->
  In f (listing st) ->
  sole_name f (listing st) ->
  intact f = true ->
  PyStr.endswith (name f) (build ++ ".kdk") = true ->
  download_kdk w constants version build st = Ok (o, st') ->
  In f (listing st').
Proof.
  intros Hb Hin Hsole Hi Hs Hrun.
  apply (preserves_download_kdk w constants build
           (fun l => In f l /\ sole_name f l))
    with (version := version) (st := st) (a := o); try assumption.
  - intros b st0 a st1 Hc [H0 H1].
    apply is_kdk_installed_cases in Hc.
    destruct Hc as [-> | [g [Hg [_ [Hgi ->]]]]]; [now split|].
    split; [|now apply sole_name_filter].
    apply filter_In. split; [assumption|].
    apply negb_true_iff, String.eqb_neq. intros Heq.
    symmetry in Heq. rewrite (H1 g Hg Heq) in Hgi. congruence.
  - intros ex Hex st0 [] st1 Hr [H0 H1].
    apply remove_unused_kdks_cases in Hr.
    destruct Hr as [-> | ->]; [now split|].
    split; [|now apply sole_name_filter].
    apply filter_In. split; [assumption|].
    destruct (existsb _ _) eqn:E; [|reflexivity].
    apply existsb_name_doomed in E. destruct E as [_ E].
    assert (K : kept ex (name f) = true).
    { apply kept_true_iff. now exists build. }
    congruence.
  - now split.
Qed.

Lemma download_kdk_keeps_requested_kit_witness :
  In (kit "KDK_14.4_23E214.kdk")
    (listing (mkState (Some [kit "KDK_14.4_23E214.kdk"])
                [Remove "KDK_13.0_22A380.kdk"; HdiutilVerify;
                 DownloadPortal (k_url kdk_23E214);
                 GetToken (k_url kdk_23E214); CheckNetwork; GetKdkApi;
                 Remove "KDK_14.4_beta_23E214.kdk"])).
Proof.
  apply (download_kdk_keeps_requested_kit
           (static_world (Response 200 "" [kdk_23E214]) no_db true token_ok
              no_mirror true 0)
           sample_constants "14.4" "23E214"
           (mkState
              (Some [broken_kit "KDK_14.4_beta_23E214.kdk";
                     kit "KDK_14.4_23E214.kdk";
                     kit "KDK_13.0_22A380.kdk"]) [])
           _ (true, "", "23E214") (kit "KDK_14.4_23E214.kdk")).
  - discriminate.
  - simpl. right. left. reflexivity.
  - intros g [<- | [<- | [<- | []]]]; simpl; intros H;
      try reflexivity; discriminate H.
  - reflexivity.
  - reflexivity.
  - reflexivity.
Defined.

Section FailurePreservation.

Variables (w : World) (constants : Constants) (build : string).
Variable I : list kdk_folder -> Prop.

Hypothesis I_installed : forall b, preserves I (is_kdk_installed b).

Lemma failure_bind {A} (m : M A) (k : A -> M outcome) :
  preserves I m -> (forall a, preserves_on_failure I (k a)) ->
  preserves_on_failure I (bind m k).
Proof.
  intros Hm Hk st o st'. unfold bind.
  destruct (m st) as [[a st1]|] eqn:E; [|discriminate].
  intros H Hf HI. exact (Hk a _ _ _ H Hf (Hm _ _ _ E HI)).
Qed.

Lemma failure_ret (o : outcome) : preserves_on_failure I (ret o).
Proof. intros st o' st' [= _ <-] _ H. exact H. Qed.

(** A pruning is always followed by the return of a success. *)
Lemma failure_pruned (exclude_builds : list string) (o : outcome) :
  fst (fst o) = true ->
  preserves_on_failure I
    (remove_unused_kdks constants exclude_builds ;;; ret o).
Proof.
  intros Ho st o' st'. unfold bind.
  destruct (remove_unused_kdks constants exclude_builds st) as [[u st1]|];
    [|discriminate].
  unfold ret. intros [= <- _] Hf. congruence.
Qed.

Lemma failure_download_and_verify (closest_build download_link : string) :
  preserves_on_failure I
    (download_and_verify w constants build closest_build download_link).
Proof.
  unfold download_and_verify.
  apply failure_bind; [apply stable_preserves, stable_transfer|].
  intros [|]; [|apply failure_ret].
  apply failure_bind; [apply stable_preserves, stable_perform|].
  intros returncode.
  destruct (negb (returncode =? 0)%Z); [apply failure_ret|].
  now apply failure_pruned.
Qed.

Lemma failure_closest_match_branch (c : candidates) :
  preserves_on_failure I (closest_match_branch w constants build c).
Proof.
  unfold closest_match_branch.
  apply failure_bind; [apply I_installed|].
  intros [|]; [now apply failure_pruned|].
  destruct (closest_match_download_link c) as [closest_link|];
    [|apply failure_ret].
  apply failure_bind;
    [apply stable_preserves, stable_verify_apple_developer_portal|].
  intros result.
  destruct (result =? 0)%Z; [apply failure_download_and_verify|].
  destruct (result =? 1)%Z; [apply failure_ret|].
  destruct (result =? 2)%Z; [|apply failure_ret].
  apply failure_bind; [apply stable_preserves, stable_kdk_backup_site|].
  intros [download_link|];
    [apply failure_download_and_verify | apply failure_ret].
Qed.

Lemma failure_download_kdk (version : string) :
  preserves_on_failure I (download_kdk w constants version build).
Proof.
  unfold download_kdk.
  apply failure_bind; [apply I_installed|].
  intros [|]; [now apply failure_pruned|].
  apply failure_bind; [apply stable_preserves, stable_resolve_candidates|].
  intros c.
  assert (Proceed : forall l,
             preserves_on_failure I
               match l with
               | Some download_link =>
                   download_and_verify w constants build (closest_build c)
                     download_link
               | None => raise TypeError
               end).
  { intros [l|]; [apply failure_download_and_verify|].
    intros st o st' H. discriminate H. }
  apply failure_bind.
  { destruct (link_truthy (download_link c)); [|apply preserves_ret].
    destruct (download_link c); [|apply preserves_ret].
    apply stable_preserves, stable_verify_apple_developer_portal. }
  intros result.
  destruct (result =? 0)%Z; [apply Proceed|].
  destruct (result =? 1)%Z; [apply failure_closest_match_branch|].
  destruct (result =? 2)%Z.
  { apply failure_bind; [apply stable_preserves, stable_kdk_backup_site|].
    intros [download_link|];
      [apply (Proceed (Some download_link)) | apply failure_ret]. }
  destruct (result =? 3)%Z; [apply failure_ret | apply Proceed].
Qed.

End FailurePreservation.

(** [is_kdk_installed] removes nothing but a damaged directory. *)
Lemma is_kdk_installed_keeps_sound (f : kdk_folder) (b : string) :
  is_dir f = false \/ intact f = true ->
  preserves (fun l => In f l /\ sole_name f l) (is_kdk_installed b).
Proof.
  intros Hf st0 a st1 Hc [H0 H1].
  apply is_kdk_installed_cases in Hc.
  destruct Hc as [-> | [g [Hg [Hgs [Hgi ->]]]]]; [now split|].
  split; [|now apply sole_name_filter].
  apply filter_In. split; [assumption|].
  apply negb_true_iff, String.eqb_neq. intros Heq.
  symmetry in Heq. rewrite (H1 g Hg Heq) in Hgi, Hgs.
  apply andb_prop in Hgs. destruct Hgs as [Hd _].
  destruct Hf; congruence.
Qed.

(** X19: the cache is pruned only on the way to a success.  When
    [download_kdk] returns a failure, or when pruning is disabled by
    [should_nuke_kdks], the only entries that left the cache root are damaged
    kit directories: an entry that is not a directory, or that has the four
    kernel extensions in place, and whose name no other entry has, is still
    listed. *)
Theorem download_kdk_prunes_only_on_success (w : World)
  (constants : Constants) (version build : string) (st st' : state)
  (ok : bool) (msg resolved : string) (f : kdk_folder) :
  ok = false \/ should_nuke_kdks constants = false ->
  In f (listing st) ->
  sole_name f (listing st) ->
  is_dir f = false \/ intact f = true ->
  download_kdk w constants version build st = Ok ((ok, msg, resolved), st') ->
  In f (listing st').
Proof.
  intros Hcase Hin Hsole Hf Hrun.
  destruct Hcase as [-> | Hn].
  - apply (failure_download_kdk w constants build
             (fun l => In f l /\ sole_name f l))
      with (version := version) (st := st) (o := (false, msg, resolved));
      try assumption; [|reflexivity|now split].
    intros b. now apply is_kdk_installed_keeps_sound.
  - apply (preserves_download_kdk w constants build
             (fun l => In f l /\ sole_name f l))
      with (version := version) (st := st) (a := (ok, msg, resolved));
      try assumption; [| |now split].
    + intros b. now apply is_kdk_installed_keeps_sound.
    + intros ex _ st0 [] st1 Hr H0.
      rewrite remove_unused_kdks_guard in Hr by auto.
      now injection Hr as <-.
Qed.

Lemma download_kdk_prunes_only_on_success_witness :
  In (kit "KDK_14.3_23D56.kdk")
    (listing
       (mkState (Some [kit "KDK_14.3_23D56.kdk"])
          [Remove "KDK_13.0_22A380.kdk"; GetKdkApi])).
Proof.
  apply (download_kdk_prunes_only_on_success world_nothing_close
           sample_constants "14.4" "23E214" cache_damaged_first _ false
           "Could not find KDK for host, nor closest match" ""
           (kit "KDK_14.3_23D56.kdk")).
  - left. reflexivity.
  - simpl. right. left. reflexivity.
  - intros g [<- | [<- | []]]; simpl; intros H;
      try reflexivity; discriminate H.
  - right. reflexivity.
  - reflexivity.
Defined.

(** ** VERSION_PATTERN *)



(** ** The empty closest build and the pruning *)

(** X21: the success with the empty build deletes the kit it was granted
    for.  With pruning enabled, when the primary link is missing or reported
    unavailable, the closest build is the empty string and the first kit
    directory of the listing is intact and is not a kit of the requested
    build, [download_kdk] returns (True, empty message, empty build) and
    that kit directory is no longer in the cache root: the pruning that
    precedes the return excludes only the requested build and the empty
    string, and the empty string protects nothing. *)
Theorem download_kdk_empty_build_prunes_found_kit (w : World)
  (constants : Constants) (version build : string) (st st1 st2 st3 : state)
  (c : candidates) (f : kdk_folder) :
  should_nuke_kdks constants = true ->
  is_kdk_installed build st = Ok (false, st1) ->
  resolve_candidates w version build st1 = Ok (c, st2) ->
  closest_build c = "" ->
  (link_truthy (download_link c) = false /\ st3 = st2) \/
  (exists link,
      download_link c = Some link /\ link <> "" /\
      verify_apple_developer_portal w link st2 = Ok (Unavailable, st3)) ->
  find is_kit (listing st3) = Some f ->
  intact f = true ->
  PyStr.endswith (name f) (build ++ ".kdk") = false ->
  exists st',
    download_kdk w constants version build st = Ok ((true, "", ""), st') /\
    ~ In f (listing st').
Proof.
  intros Hn Hi Hc Hcb Hprobe Hfirst Hintact Hother.
  assert (Hinst : is_kdk_installed "" st3 = Ok (true, st3)).
  { exact (is_kdk_installed_first_intact "" st3 f Hfirst Hintact). }
  destruct (kdks st3) as [folders|] eqn:Hk;
    [|unfold listing in Hfirst; rewrite Hk in Hfirst; discriminate].
  pose proof (remove_unused_kdks_active constants [build; ""] st3 folders
                Hn Hk ltac:(discriminate)) as Hr.
  set (st' := mkState
                (Some (filter
                         (fun g =>
                            negb (existsb (String.eqb (name g))
                                    (doomed_names [build; ""] folders)))
                         folders))
                (rev (map Remove (doomed_names [build; ""] folders))
                 ++ log st3)) in *.
  exists st'. split.
  - assert (Hbranch : closest_match_branch w constants build c st3
                      = Ok ((true, "", ""), st')).
    { unfold closest_match_branch, bind. rewrite Hcb, Hinst, Hr.
      reflexivity. }
    unfold download_kdk, bind. rewrite Hi, Hc.
    destruct Hprobe as [[Hl ->] | [link [Hl [Hne Hv]]]].
    + rewrite Hl. unfold ret at 1. simpl. exact Hbranch.
    + rewrite Hl. simpl.
      assert (Ht : PyStr.truthy link = true) by now destruct link.
      rewrite Ht, Hv. simpl. exact Hbranch.
  - unfold listing. simpl. intros Hin. apply filter_In in Hin.
    destruct Hin as [Hin Hx].
    unfold listing in Hfirst. rewrite Hk in Hfirst.
    apply find_some in Hfirst. destruct Hfirst as [_ Hkit].
    assert (Hd : doomed [build; ""] f = true).
    { unfold doomed, kept. rewrite Hkit. simpl.
      rewrite Hother. now rewrite andb_false_r. }
    rewrite (existsb_name_self _ _ _ Hin Hd) in Hx. discriminate.
Qed.

Lemma download_kdk_empty_build_prunes_found_kit_witness :
  exists st',
    download_kdk world_nothing_close sample_constants "14.4" "23E214"
      cache_sound_first = Ok ((true, "", ""), st') /\
    ~ In (kit "KDK_14.3_23D56.kdk") (listing st').
Proof.
  apply (download_kdk_empty_build_prunes_found_kit world_nothing_close
           sample_constants "14.4" "23E214" cache_sound_first
           cache_sound_first
           (mkState (kdks cache_sound_first) [GetKdkApi])
           (mkState (kdks cache_sound_first) [GetKdkApi])
           (mkCandidates None None "" "")
           (kit "KDK_14.3_23D56.kdk")).
  - reflexivity.
  - reflexivity.
  - reflexivity.
  - reflexivity.
  - left. split; reflexivity.
  - reflexivity.
  - reflexivity.
  - reflexivity.
Defined.
